(** * EvolutionTrainer: stage resolution and stage transition

    A shallow embedding of [python/tfutils/evolutiontrainer.py].  Python
    exceptions become an explicit error result, the directory tree is a
    finite set of directory paths, and the collaborators that live in other
    modules of the package ([TrainerBase]'s constants, the checkpoint
    discovery helper, [optimistic_restore], [SimpleTrainer.mainloop]) are
    parameters of the development. *)

From Stdlib Require Import ZArith.
From stdpp Require Import base decidable option list sorting gmap strings.

Local Open Scope string_scope.
Local Open Scope Z_scope.

(** ** Exceptions and the error monad *)

Inductive exn : Type :=
  | ValueError (msg : string)
  | RuntimeError (msg : string)
  | NotInList (x : string)     (* the ValueError of [list.index] *)
  | IndexError.                (* list subscript out of range *)

Inductive result (A : Type) : Type :=
  | Ok (a : A)
  | Raise (e : exn).
Arguments Ok {A} a.
Arguments Raise {A} e.

#[global] Instance result_ret : MRet result := λ A a, Ok a.
#[global] Instance result_bind : MBind result := λ A B f m,
  match m with
  | Ok a => f a
  | Raise e => Raise e
  end.
#[global] Instance result_fmap : FMap result := λ A B f m,
  match m with
  | Ok a => Ok (f a)
  | Raise e => Raise e
  end.

(** ** Python built-ins used by the module *)

Module Py.

(** The double quote character, for the messages built with [format]. *)
Definition dq : string := String (Ascii.ascii_of_nat 34) EmptyString.

(** Truth value of a [str]: only the empty string is false. *)
Definition truthy (s : string) : bool :=
  match s with
  | EmptyString => false
  | String _ _ => true
  end.

(** [x in l] on a list or tuple of strings. *)
Definition contains (l : list string) (x : string) : bool :=
  bool_decide (x ∈ l).

(** Position of the first occurrence of [x] in [l]. *)
Fixpoint find_index (l : list string) (x : string) : option nat :=
  match l with
  | [] => None
  | y :: l' => if decide (y = x) then Some O else S <$> find_index l' x
  end.

(** [l.index(x)] *)
Definition index (l : list string) (x : string) : result nat :=
  match find_index l x with
  | Some i => Ok i
  | None => Raise (NotInList x)
  end.

(** [l[i]] for a non-negative [i]. *)
Definition item (l : list string) (i : nat) : result string :=
  match l !! i with
  | Some x => Ok x
  | None => Raise IndexError
  end.

(** Order of [(iteration, path)] tuples: first component, then second. *)
Definition tuple_le (x y : Z * string) : Prop :=
  x.1 < y.1 ∨ (x.1 = y.1 ∧ String.leb x.2 y.2 = true).

#[global] Instance tuple_le_dec : RelDecision tuple_le.
Proof. intros x y. unfold tuple_le. apply _. Defined.

(** [sorted(l)] on a list of [(iteration, path)] tuples. *)
Definition sorted (l : list (Z * string)) : list (Z * string) :=
  merge_sort tuple_le l.

End Py.

(** ** [os.path] and the directory tree *)

Module Os.

Definition sep : Ascii.ascii := Ascii.ascii_of_nat 47.

Definition startswith_sep (s : string) : bool :=
  match s with
  | String c _ => Ascii.eqb c sep
  | EmptyString => false
  end.

Fixpoint endswith_sep (s : string) : bool :=
  match s with
  | EmptyString => false
  | String c EmptyString => Ascii.eqb c sep
  | String _ s' => endswith_sep s'
  end.

(** One round of the loop of [posixpath.join]. *)
Definition join_step (path b : string) : string :=
  if startswith_sep b then b
  else if negb (Py.truthy path) || endswith_sep path then path +:+ b
  else path +:+ String sep b.

(** [os.path.join(a, *p)] *)
Definition path_join (a : string) (p : list string) : string :=
  foldl join_step a p.

(** The directory tree: the set of paths that are directories, each path
    written as the program writes it. *)
Abbreviation filesystem := (gset string).

(** [os.path.isdir(path)] *)
Definition path_isdir (fs : filesystem) (path : string) : bool :=
  bool_decide (path ∈ fs).

(** The proper prefixes of [s] that end just before a separator. *)
Fixpoint parents (acc s : string) : list string :=
  match s with
  | EmptyString => []
  | String c s' =>
      (if Ascii.eqb c sep && Py.truthy acc then [acc] else [])
        ++ parents (acc +:+ String c EmptyString) s'
  end.

(** [os.makedirs(path, exist_ok=True)]: the leaf and the intermediate
    directories exist afterwards; directories already there are kept. *)
Definition makedirs (fs : filesystem) (path : string) : filesystem :=
  fs ∪ {[ path ]} ∪ list_to_set (parents EmptyString path).

End Os.

(** ** The trainer *)

(** A snapshot tuple [(evolution, iteration, path)]. *)
Definition Snapshot : Type := string * Z * string.

(** An argument that a call may leave to the callee's default. *)
Inductive kwarg (A : Type) : Type :=
  | NotPassed
  | Passed (a : A).
Arguments NotPassed {A}.
Arguments Passed {A} a.

(** What [load_checkpoint] does to the outside, in order. *)
Inductive effect : Type :=
  | Stdout (words : list string)
  | OptimisticRestore
      (checkpoint_filepath : string)
      (ignore_vars : kwarg (option (list string)))
      (verbose : bool)
      (remove_nonfinite_checkpoints : kwarg bool).

(** The object passed as [evolutions]: a list, a tuple, or some other
    iterable, each with the names it yields. *)
Inductive evolutions_arg : Type :=
  | PyList (names : list string)
  | PyTuple (names : list string)
  | PyOther (names : list string).

Definition names_of (a : evolutions_arg) : list string :=
  match a with
  | PyList l | PyTuple l | PyOther l => l
  end.

(** Constants of [TrainerBase], which is defined in another module. *)
Class TrainerBase : Type := {
  PROCESSID_FILE : string;
  TRAIN_LOGDIR : string;
  CHECKPOINTS_DIR : string;
  RECOVERY_CHECKPOINTS_DIR : string;
  CHECKPOINTS_FILE_PREFIX : string;
  STATUS_TRAINING_FINISHED : Z;
  STATUS_TRAINING_UNFINISHED : Z;
  STATUS_TRAINING_NAN_LOSS : Z;
}.

(** [helpers.retrieve_all_checkpoints], which is defined in another module:
    the [(iteration, path)] tuples found for a checkpoint prefix, in the
    order in which the helper returns them.  Nothing is assumed about that
    order. *)
Class Helpers : Type := {
  retrieve_all_checkpoints : string → list (Z * string);
}.

(** [SimpleTrainer(session, train_dir)] *)
Record SimpleTrainer (Session : Type) : Type := {
  st_session : Session;
  st_train_dir : string;
}.
Arguments st_session {Session} _.
Arguments st_train_dir {Session} _.

(** [SimpleTrainer.mainloop]: runs on the directory tree and returns a
    status code together with the tree it leaves. *)
Class SimpleTrainerLoop (Session : Type) : Type := {
  SimpleTrainer_mainloop :
    SimpleTrainer Session → Os.filesystem → Z * Os.filesystem;
}.

Section EvolutionTrainer.

(** The session handle; the trainer only stores and forwards it. *)
Context {Session : Type}.
Context {TB : TrainerBase} {HP : Helpers} {ST : SimpleTrainerLoop Session}.

Record EvolutionTrainer : Type := {
  _session : Session;
  _train_dir : string;
  _evolutions : list string;
  _current_evolution : string;
  _init_snapshot : option Snapshot;
  _current_evolution_dir : string;
  _simpletrainer : SimpleTrainer Session;
}.

(** *** [_Evo] *)

Record _Evo : Type := {
  _evolution : string;
  _all_evolutions : list string;
}.

Definition evo_compare (self : _Evo) (compare_op : nat → nat → bool)
    (other : string) : result bool :=
  if negb (Py.contains (_all_evolutions self) other) then
    Raise (ValueError ("Unknown evolution " +:+ Py.dq +:+ other +:+ Py.dq))
  else
    other_index ← Py.index (_all_evolutions self) other;
    evo_index ← Py.index (_all_evolutions self) (_evolution self);
    Ok (compare_op evo_index other_index).

(** [__str__] and [name] *)
Definition __str__ (self : _Evo) : string := _evolution self.
Definition name (self : _Evo) : string := _evolution self.

Definition operator_eq (a b : nat) : bool := bool_decide (a = b).
Definition operator_ne (a b : nat) : bool := negb (bool_decide (a = b)).
Definition operator_lt (a b : nat) : bool := bool_decide (a < b)%nat.
Definition operator_le (a b : nat) : bool := bool_decide (a ≤ b)%nat.
Definition operator_gt (a b : nat) : bool := bool_decide (b < a)%nat.
Definition operator_ge (a b : nat) : bool := bool_decide (b ≤ a)%nat.

Definition __eq__ (self : _Evo) (evo : string) := evo_compare self operator_eq evo.
Definition __ne__ (self : _Evo) (evo : string) := evo_compare self operator_ne evo.
Definition __lt__ (self : _Evo) (evo : string) := evo_compare self operator_lt evo.
Definition __le__ (self : _Evo) (evo : string) := evo_compare self operator_le evo.
Definition __gt__ (self : _Evo) (evo : string) := evo_compare self operator_gt evo.
Definition __ge__ (self : _Evo) (evo : string) := evo_compare self operator_ge evo.

(** *** [_check_evolution_names] *)

Definition invalid_names : list string :=
  [PROCESSID_FILE; TRAIN_LOGDIR; CHECKPOINTS_DIR; RECOVERY_CHECKPOINTS_DIR;
   "testlogs"%string].

(** The first loop: reject the first reserved name. *)
Fixpoint check_invalid (evolutions : list string) : result unit :=
  match evolutions with
  | [] => Ok ()
  | evo :: rest =>
      if Py.contains invalid_names evo then
        Raise (ValueError (Py.dq +:+ evo +:+ Py.dq +:+ " is not a valid evo name!"))
      else check_invalid rest
  end.

(** The second loop: [evo_set] holds the names seen so far. *)
Fixpoint check_unique (evo_set : gset string) (evolutions : list string)
    : result unit :=
  match evolutions with
  | [] => Ok ()
  | evo :: rest =>
      if negb (bool_decide (evo ∈ evo_set)) then
        check_unique ({[ evo ]} ∪ evo_set) rest
      else
        Raise (ValueError ("There are at least two evolutions named "
                             +:+ Py.dq +:+ evo +:+ Py.dq +:+ "!"))
  end.

Definition _check_evolution_names (evolutions : list string) : result unit :=
  _ ← check_invalid evolutions;
  check_unique ∅ evolutions.

(** *** [_retrieve_current_evolution_and_last_snapshot] *)

Definition last_as (evo : string) (all_checkpoints : list (Z * string))
    : option Snapshot :=
  match last all_checkpoints with
  | Some (iteration, path) => Some (evo, iteration, path)
  | None => None
  end.

(** "try getting the snapshot from the current evolution": the block
    guarded by [if current_evo:]. *)
Definition snapshot_from_current (train_dir current_evo : string)
    : option Snapshot :=
  if Py.truthy current_evo then
    let evo_checkpoint_path :=
      Os.path_join train_dir
        [current_evo; CHECKPOINTS_DIR; CHECKPOINTS_FILE_PREFIX] in
    let evo_recovery_checkpoint_path :=
      Os.path_join train_dir
        [current_evo; RECOVERY_CHECKPOINTS_DIR; CHECKPOINTS_FILE_PREFIX] in
    let all_checkpoints :=
      Py.sorted (retrieve_all_checkpoints evo_checkpoint_path
                   ++ retrieve_all_checkpoints evo_recovery_checkpoint_path) in
    last_as current_evo all_checkpoints
  else None.

(** "try getting the snapshot from the previous evolution": the block
    guarded by [if previous_evo and snapshot is None:]. *)
Definition snapshot_from_previous (train_dir : string)
    (previous_evo : option string) (snapshot : option Snapshot)
    : option Snapshot :=
  match previous_evo, snapshot with
  | Some previous_evo, None =>
      if Py.truthy previous_evo then
        let evo_checkpoint_path :=
          Os.path_join train_dir
            [previous_evo; CHECKPOINTS_DIR; CHECKPOINTS_FILE_PREFIX] in
        let all_checkpoints := retrieve_all_checkpoints evo_checkpoint_path in
        last_as previous_evo all_checkpoints
      else None
  | _, _ => snapshot
  end.

Definition _retrieve_current_evolution_and_last_snapshot
    (fs : Os.filesystem) (train_dir : string) (evolutions : list string)
    (force_evo : option string) : result (string * option Snapshot) :=
  let current_evo : option string :=
    match force_evo with
    | None =>
        snd <$> list_find
          (λ evo, Os.path_isdir fs (Os.path_join train_dir [evo]) = true)
          (reverse evolutions)
    | Some evo => Some evo
    end in
  current_evo ←
    match current_evo with
    | None => Py.item evolutions 0
    | Some evo => Ok evo
    end;
  current_evo_index ← Py.index evolutions current_evo;
  previous_evo ←
    (if bool_decide (0 < current_evo_index)%nat
     then Some <$> Py.item evolutions (current_evo_index - 1)
     else Ok None);
  let snapshot := snapshot_from_current train_dir current_evo in
  let snapshot := snapshot_from_previous train_dir previous_evo snapshot in
  Ok (current_evo, snapshot).

(** *** [__init__] *)

Definition __init__ (fs : Os.filesystem) (session : Session)
    (train_dir : string) (evolutions : evolutions_arg)
    (force_evo : option string) : result EvolutionTrainer :=
  _ ← _check_evolution_names (names_of evolutions);
  self_evolutions ←
    match evolutions with
    | PyTuple l => Ok l
    | PyList l => Ok l
    | PyOther _ =>
        Raise (ValueError ("invalid argument for " +:+ Py.dq +:+ "evolutions" +:+ Py.dq))
    end;
  if bool_decide (length self_evolutions = 0%nat) then
    Raise (ValueError "evolution list is empty!")
  else
    match force_evo with
    | Some evo =>
        if negb (Py.contains self_evolutions evo) then
          Raise (ValueError (evo +:+ " is not in the evolution list"))
        else Ok ()
    | None => Ok ()
    end ≫= λ _,
    '(current_evo, snapshot) ←
      _retrieve_current_evolution_and_last_snapshot
        fs train_dir self_evolutions force_evo;
    let current_evolution_dir := Os.path_join train_dir [current_evo] in
    current_index ← Py.index self_evolutions current_evo;
    if bool_decide (0 < current_index)%nat && bool_decide (snapshot = None) then
      Raise (RuntimeError
               (Py.dq +:+ current_evo +:+ Py.dq +:+
                " is not the first evolution and no init snapshot was found for the previous evolution"))
    else
      Ok {| _session := session;
            _train_dir := train_dir;
            _evolutions := self_evolutions;
            _current_evolution := current_evo;
            _init_snapshot := snapshot;
            _current_evolution_dir := current_evolution_dir;
            _simpletrainer :=
              {| st_session := session;
                 st_train_dir := current_evolution_dir |} |}.

(** *** Accessors *)

Definition session (self : EvolutionTrainer) : Session := _session self.

Definition init_snapshot (self : EvolutionTrainer) : option Snapshot :=
  _init_snapshot self.

(** *** Comparison shortcuts *)

Definition current_evo (self : EvolutionTrainer) : _Evo :=
  {| _evolution := _current_evolution self;
     _all_evolutions := _evolutions self |}.

Definition current_evo_lt (self : EvolutionTrainer) evo := __lt__ (current_evo self) evo.
Definition current_evo_le (self : EvolutionTrainer) evo := __le__ (current_evo self) evo.
Definition current_evo_gt (self : EvolutionTrainer) evo := __gt__ (current_evo self) evo.
Definition current_evo_ge (self : EvolutionTrainer) evo := __ge__ (current_evo self) evo.
Definition current_evo_eq (self : EvolutionTrainer) evo := __eq__ (current_evo self) evo.
Definition current_evo_ne (self : EvolutionTrainer) evo := __ne__ (current_evo self) evo.

(** The validation loop of [current_evo_in]. *)
Fixpoint check_known (evolutions evos : list string) : result unit :=
  match evos with
  | [] => Ok ()
  | evo :: rest =>
      if negb (Py.contains evolutions evo) then
        Raise (ValueError ("Unknown evolution " +:+ Py.dq +:+ evo +:+ Py.dq))
      else check_known evolutions rest
  end.

Definition current_evo_in (self : EvolutionTrainer) (evos : list string)
    : result bool :=
  _ ← check_known (_evolutions self) evos;
  Ok (Py.contains evos (_current_evolution self)).

(** *** [load_checkpoint] *)

(** The branch taken by [if checkpoint_filepath:], where the argument is
    [None] or a string: the path when it is a non-empty string. *)
Definition given_path (checkpoint_filepath : option string) : option string :=
  match checkpoint_filepath with
  | Some path => if Py.truthy path then Some path else None
  | None => None
  end.

Definition load_checkpoint (self : EvolutionTrainer)
    (checkpoint_filepath : option string) (verbose : bool)
    (remove_nonfinite_checkpoints : bool) : list effect :=
  match given_path checkpoint_filepath with
  | Some checkpoint_filepath =>
      [Stdout ["loading"%string; checkpoint_filepath];
       OptimisticRestore checkpoint_filepath NotPassed verbose NotPassed]
  | None =>
      match _init_snapshot self with
      | Some (snapshot_evo, _, snapshot_path) =>
          let ignore_vars :=
            if negb (bool_decide (_current_evolution self = snapshot_evo))
            then Some ["global_step"%string]
            else None in
          let last_checkpoint := snapshot_path in
          [Stdout ["loading"%string; last_checkpoint];
           OptimisticRestore last_checkpoint (Passed ignore_vars) verbose
             (Passed remove_nonfinite_checkpoints)]
      | None => [Stdout ["nothing to restore. no checkpoint found."%string]]
      end
  end.

(** *** [mainloop] *)

(** The progress lines that [mainloop] prints are left out. *)
Definition mainloop (self : EvolutionTrainer) (fs : Os.filesystem)
    : result (Z * Os.filesystem) :=
  let '(status, fs) := SimpleTrainer_mainloop (_simpletrainer self) fs in
  evo_index ← Py.index (_evolutions self) (_current_evolution self);
  if bool_decide (status = STATUS_TRAINING_FINISHED) then
    if bool_decide (evo_index + 1 < length (_evolutions self))%nat then
      next_evolution ← Py.item (_evolutions self) (evo_index + 1);
      let next_evolution_dir :=
        Os.path_join (_train_dir self) [next_evolution] in
      Ok (STATUS_TRAINING_UNFINISHED, Os.makedirs fs next_evolution_dir)
    else Ok (status, fs)
  else if bool_decide (status = STATUS_TRAINING_NAN_LOSS) then Ok (status, fs)
  else Ok (status, fs).

End EvolutionTrainer.

Arguments EvolutionTrainer : clear implicits.

(** [i] is the position of the first occurrence of [x] in [l], which is
    what [l.index(x)] returns. *)
Definition first_position (l : list string) (x : string) (i : nat) : Prop :=
  l !! i = Some x ∧ ∀ j, (j < i)%nat → l !! j ≠ Some x.

(** The names a stage must not have. *)
Definition reserved {TB : TrainerBase} (x : string) : Prop :=
  x = PROCESSID_FILE ∨ x = TRAIN_LOGDIR ∨ x = CHECKPOINTS_DIR ∨
  x = RECOVERY_CHECKPOINTS_DIR ∨ x = "testlogs"%string.

(** Some name occurs twice in [l]. *)
Definition repeated (l : list string) (x : string) : Prop :=
  ∃ i j, (i < j)%nat ∧ l !! i = Some x ∧ l !! j = Some x.

(** ** A concrete setting for the examples *)

Module Demo.

(** Sample values for the constants of [TrainerBase]. *)
Definition tb : TrainerBase := {|
  PROCESSID_FILE := "processid";
  TRAIN_LOGDIR := "trainlogs";
  CHECKPOINTS_DIR := "checkpoints";
  RECOVERY_CHECKPOINTS_DIR := "recovery_checkpoints";
  CHECKPOINTS_FILE_PREFIX := "snapshot";
  STATUS_TRAINING_FINISHED := 0;
  STATUS_TRAINING_UNFINISHED := 1;
  STATUS_TRAINING_NAN_LOSS := 2;
|}.

(** Checkpoint discovery reading a table from prefix to tuples. *)
Definition listing (table : gmap string (list (Z * string))) : Helpers := {|
  retrieve_all_checkpoints prefix := default [] (table !! prefix);
|}.

(** A [SimpleTrainer.mainloop] that returns [status] and leaves the
    directory tree as it is. *)
Definition loop_returning (status : Z) : SimpleTrainerLoop unit := {|
  SimpleTrainer_mainloop _ fs := (status, fs);
|}.

Definition abc : list string := ["a"; "b"; "c"]%string.

Definition trainer (current : string) (snap : option Snapshot)
    : EvolutionTrainer unit := {|
  _session := ();
  _train_dir := "base";
  _evolutions := abc;
  _current_evolution := current;
  _init_snapshot := snap;
  _current_evolution_dir := Os.path_join "base" [current];
  _simpletrainer :=
    {| st_session := (); st_train_dir := Os.path_join "base" [current] |};
|}.

(** Stage "a" holds checkpoints 20 and 10, listed in that order. *)
Definition disk_a : gmap string (list (Z * string)) :=
  {[ "base/a/checkpoints/snapshot"%string :=
       [(20, "base/a/checkpoints/snapshot-20"%string);
        (10, "base/a/checkpoints/snapshot-10"%string)] ]}.

(** Stage "b" holds checkpoints 10 and 20; stage "a" holds checkpoint 5. *)
Definition disk_b : gmap string (list (Z * string)) :=
  {[ "base/b/checkpoints/snapshot"%string :=
       [(10, "base/b/checkpoints/snapshot-10"%string);
        (20, "base/b/checkpoints/snapshot-20"%string)];
     "base/a/checkpoints/snapshot"%string :=
       [(5, "base/a/checkpoints/snapshot-5"%string)] ]}.

(** Stage "b" holds one recovery checkpoint and nothing else. *)
Definition disk_b_recovery : gmap string (list (Z * string)) :=
  {[ "base/b/recovery_checkpoints/snapshot"%string :=
       [(20, "base/b/recovery_checkpoints/snapshot-20"%string)] ]}.

(** Stage "c" holds checkpoint 5 and recovery checkpoint 7. *)
Definition disk_c : gmap string (list (Z * string)) :=
  {[ "base/c/checkpoints/snapshot"%string :=
       [(5, "base/c/checkpoints/snapshot-5"%string)];
     "base/c/recovery_checkpoints/snapshot"%string :=
       [(7, "base/c/recovery_checkpoints/snapshot-7"%string)] ]}.

(** [disk_b] with a recovery checkpoint for stage "b" in addition. *)
Definition disk_b_more : gmap string (list (Z * string)) :=
  <[ "base/b/recovery_checkpoints/snapshot"%string :=
       [(99, "base/b/recovery_checkpoints/snapshot-99"%string)] ]> disk_b.

(** A checkpoint in the directories that a stage of empty name would use. *)
Definition disk_nameless : gmap string (list (Z * string)) :=
  {[ "base/checkpoints/snapshot"%string :=
       [(3, "base/checkpoints/snapshot-3"%string)] ]}.

Definition tree_ab : Os.filesystem := {[ "base/a"; "base/b" ]}%string.
Definition tree_abc : Os.filesystem := {[ "base/a"; "base/b"; "base/c" ]}%string.
Definition tree_c : Os.filesystem := {[ "base/c" ]}%string.

(** The trainer that construction returns for the single stage "/abs". *)
Definition trainer_abs : EvolutionTrainer unit := {|
  _session := ();
  _train_dir := "base";
  _evolutions := ["/abs"%string];
  _current_evolution := "/abs";
  _init_snapshot := None;
  _current_evolution_dir := "/abs";
  _simpletrainer := {| st_session := (); st_train_dir := "/abs" |};
|}.

End Demo.

(** * Properties *)

Section Properties.

Context {Session : Type}.
Context {TB : TrainerBase} {HP : Helpers} {ST : SimpleTrainerLoop Session}.

(** ** The built-ins *)

Lemma contains_true l x : Py.contains l x = true ↔ x ∈ l.
Proof. unfold Py.contains. apply bool_decide_eq_true. Qed.

Lemma contains_false l x : Py.contains l x = false ↔ x ∉ l.
Proof. unfold Py.contains. apply bool_decide_eq_false. Qed.

Lemma find_index_first l x i :
  Py.find_index l x = Some i ↔ first_position l x i.
Proof.
  unfold first_position. revert i.
  induction l as [|y l IH]; intros i; simpl.
  - split; [done | intros [? _]; done].
  - destruct (decide (y = x)) as [->|Hne].
    + split.
      * intros [= <-]. split; [done | intros j Hj; lia].
      * intros [Hi Hlt]. destruct i as [|i]; [done |].
        exfalso. apply (Hlt 0%nat); [lia | done].
    + split.
      * destruct (Py.find_index l x) as [k|]; simpl; [| done].
        intros [= <-]. destruct (proj1 (IH k) eq_refl) as [Hk1 Hk2].
        split; [done |].
        intros [|j] Hj; simpl; [congruence | apply Hk2; lia].
      * intros [Hi Hlt]. destruct i as [|i]; simpl in Hi; [congruence |].
        rewrite (proj2 (IH i)); [done |]. split; [done |].
        intros j Hj. apply (Hlt (S j)). lia.
Qed.

Lemma find_index_elem l x : x ∈ l → ∃ i, Py.find_index l x = Some i.
Proof.
  induction l as [|y l IH]; simpl.
  - intros H. by apply not_elem_of_nil in H.
  - intros H. destruct (decide (y = x)) as [|Hne]; [by eexists |].
    apply elem_of_cons in H as [->|H]; [done |].
    destruct (IH H) as [i ->]. by eexists.
Qed.

Lemma find_index_not_elem l x : x ∉ l → Py.find_index l x = None.
Proof.
  intros H. destruct (Py.find_index l x) as [i|] eqn:Hi; [| done].
  apply find_index_first in Hi as [Hi _].
  exfalso. apply H. by eapply list_elem_of_lookup_2.
Qed.

Lemma index_elem l x :
  x ∈ l → ∃ i, Py.index l x = Ok i ∧ first_position l x i.
Proof.
  intros H. destruct (find_index_elem l x H) as [i Hi].
  exists i. unfold Py.index. rewrite Hi. split; [done |].
  by apply find_index_first.
Qed.

Lemma index_Ok l x i : Py.index l x = Ok i → first_position l x i.
Proof.
  unfold Py.index. destruct (Py.find_index l x) eqn:H; [| done].
  intros [= <-]. by apply find_index_first.
Qed.

Lemma index_head x l : Py.index (x :: l) x = Ok 0%nat.
Proof. unfold Py.index. simpl. by rewrite decide_True. Qed.

Lemma first_position_unique l x i j :
  first_position l x i → first_position l x j → i = j.
Proof.
  intros [Hi Hi'] [Hj Hj'].
  destruct (Nat.lt_trichotomy i j) as [H|[H|H]]; [| done |].
  - by destruct (Hj' i H).
  - by destruct (Hi' j H).
Qed.

Lemma first_position_NoDup l x i k :
  NoDup l → l !! k = Some x → first_position l x i → i = k.
Proof. intros Hnd Hk [Hi _]. by eapply NoDup_lookup. Qed.

(** ** Comparisons *)

Lemma evo_compare_positions (self : _Evo) compare_op other :
  _evolution self ∈ _all_evolutions self →
  other ∈ _all_evolutions self →
  ∃ i j,
    first_position (_all_evolutions self) (_evolution self) i ∧
    first_position (_all_evolutions self) other j ∧
    evo_compare self compare_op other = Ok (compare_op i j).
Proof.
  intros Hcur Hother.
  destruct (index_elem _ _ Hcur) as (i & Hi & Hpi).
  destruct (index_elem _ _ Hother) as (j & Hj & Hpj).
  exists i, j. split_and!; [done | done |].
  unfold evo_compare.
  apply contains_true in Hother. rewrite Hother. simpl.
  rewrite Hj. simpl. rewrite Hi. done.
Qed.

Lemma evo_compare_unknown (self : _Evo) compare_op other :
  other ∉ _all_evolutions self →
  evo_compare self compare_op other
  = Raise (ValueError ("Unknown evolution " +:+ Py.dq +:+ other +:+ Py.dq)).
Proof.
  intros H. unfold evo_compare.
  apply contains_false in H. by rewrite H.
Qed.

(** C7: for a current stage and a queried name that both occur in the stage
    list, each of the six relational queries returns the comparison of their
    positions in the list (the positions [list.index] reports), whatever the
    spelling of the two names. *)
Theorem relational_queries_compare_positions
    (self : EvolutionTrainer Session) (other : string) :
  _current_evolution self ∈ _evolutions self →
  other ∈ _evolutions self →
  ∃ i j : nat,
    first_position (_evolutions self) (_current_evolution self) i ∧
    first_position (_evolutions self) other j ∧
    current_evo_eq self other = Ok (bool_decide (i = j)) ∧
    current_evo_ne self other = Ok (negb (bool_decide (i = j))) ∧
    current_evo_lt self other = Ok (bool_decide (i < j)%nat) ∧
    current_evo_le self other = Ok (bool_decide (i ≤ j)%nat) ∧
    current_evo_gt self other = Ok (bool_decide (j < i)%nat) ∧
    current_evo_ge self other = Ok (bool_decide (j ≤ i)%nat).
Proof.
  intros Hcur Hother.
  destruct (index_elem _ _ Hcur) as (i & Hi & Hpi).
  destruct (index_elem _ _ Hother) as (j & Hj & Hpj).
  exists i, j. split; [done |]. split; [done |].
  apply contains_true in Hother.
  unfold current_evo_eq, current_evo_ne, current_evo_lt, current_evo_le,
    current_evo_gt, current_evo_ge, __eq__, __ne__, __lt__, __le__, __gt__,
    __ge__, evo_compare, current_evo; simpl.
  rewrite Hother; simpl. rewrite Hj; simpl. rewrite Hi; simpl.
  split_and!; reflexivity.
Qed.

(** C8, relational part as a lemma on the six shortcuts. *)
Lemma relational_queries_unknown (self : EvolutionTrainer Session) other :
  other ∉ _evolutions self →
  let unknown : result bool :=
    Raise (ValueError ("Unknown evolution " +:+ Py.dq +:+ other +:+ Py.dq)) in
  current_evo_eq self other = unknown ∧ current_evo_ne self other = unknown ∧
  current_evo_lt self other = unknown ∧ current_evo_le self other = unknown ∧
  current_evo_gt self other = unknown ∧ current_evo_ge self other = unknown.
Proof.
  intros H unknown. split_and!; by apply evo_compare_unknown.
Qed.

Lemma check_known_Ok evolutions evos :
  (∀ evo, evo ∈ evos → evo ∈ evolutions) →
  check_known evolutions evos = Ok ().
Proof.
  induction evos as [|evo evos IH]; intros H; simpl; [done |].
  assert (Py.contains evolutions evo = true) as ->.
  { apply contains_true, H. by left. }
  simpl. apply IH. intros x Hx. apply H. by right.
Qed.

Lemma check_known_Raise evolutions evos :
  (∃ evo, evo ∈ evos ∧ evo ∉ evolutions) →
  ∃ evo, evo ∈ evos ∧ (evo ∉ evolutions) ∧
    check_known evolutions evos
    = Raise (ValueError ("Unknown evolution " +:+ Py.dq +:+ evo +:+ Py.dq)).
Proof.
  induction evos as [|evo evos IH]; intros (x & Hx & Hnot); simpl.
  - by apply not_elem_of_nil in Hx.
  - destruct (Py.contains evolutions evo) eqn:Hc; simpl.
    + apply contains_true in Hc.
      apply elem_of_cons in Hx as [->|Hx]; [done |].
      destruct IH as (y & Hy & Hny & ->); [by exists x |].
      exists y. split_and!; [by right | done | done].
    + apply contains_false in Hc. exists evo.
      split_and!; [by left | done | done].
Qed.

(** C8: a relational query against a name that is not in the stage list
    raises the unknown-stage error, for each of the six queries; the
    membership query raises it as soon as one queried name is not in the
    stage list, wherever the current stage is, and otherwise tells whether
    the current stage is among the queried names. *)
Theorem unknown_stage_errors (self : EvolutionTrainer Session) :
  (∀ other, other ∉ _evolutions self →
     let unknown : result bool :=
       Raise (ValueError ("Unknown evolution " +:+ Py.dq +:+ other +:+ Py.dq)) in
     current_evo_eq self other = unknown ∧ current_evo_ne self other = unknown ∧
     current_evo_lt self other = unknown ∧ current_evo_le self other = unknown ∧
     current_evo_gt self other = unknown ∧ current_evo_ge self other = unknown) ∧
  (∀ evos, (∃ evo, evo ∈ evos ∧ evo ∉ _evolutions self) →
     ∃ evo, evo ∈ evos ∧ (evo ∉ _evolutions self) ∧
       current_evo_in self evos
       = Raise (ValueError ("Unknown evolution " +:+ Py.dq +:+ evo +:+ Py.dq))) ∧
  (∀ evos, (∀ evo, evo ∈ evos → evo ∈ _evolutions self) →
     current_evo_in self evos
     = Ok (bool_decide (_current_evolution self ∈ evos))).
Proof.
  split_and!.
  - intros other H. by apply relational_queries_unknown.
  - intros evos H.
    destruct (check_known_Raise _ _ H) as (evo & Hin & Hnot & Heq).
    exists evo. split_and!; [done | done |].
    unfold current_evo_in. by rewrite Heq.
  - intros evos H. unfold current_evo_in.
    by rewrite (check_known_Ok _ _ H).
Qed.

(** ** [load_checkpoint] *)

(** C10: the empty string as checkpoint path is treated as no path: the
    call does what it does without a path, which is to restore the resolved
    snapshot, or to restore nothing when there is none. *)
Theorem load_checkpoint_empty_path (self : EvolutionTrainer Session)
    (verbose remove_nonfinite_checkpoints : bool) :
  load_checkpoint self (Some EmptyString) verbose remove_nonfinite_checkpoints
  = load_checkpoint self None verbose remove_nonfinite_checkpoints ∧
  load_checkpoint self (Some EmptyString) verbose remove_nonfinite_checkpoints
  = match _init_snapshot self with
    | Some (evo, _, path) =>
        [Stdout ["loading"%string; path];
         OptimisticRestore path
           (Passed (if bool_decide (_current_evolution self = evo)
                    then None else Some ["global_step"%string]))
           verbose (Passed remove_nonfinite_checkpoints)]
    | None => [Stdout ["nothing to restore. no checkpoint found."%string]]
    end.
Proof.
  split; [reflexivity |].
  unfold load_checkpoint. simpl.
  destruct (_init_snapshot self) as [[[evo iteration] path]|]; [| reflexivity].
  by destruct (bool_decide (_current_evolution self = evo)).
Qed.

Lemma given_path_nonempty path : path ≠ EmptyString → given_path (Some path) = Some path.
Proof. by destruct path. Qed.

(** C5, amended: without a path, a snapshot of another stage is restored
    without the global step, a snapshot of the current stage is restored
    with nothing left out, and without a snapshot nothing is restored; with
    a non-empty path exactly that file is restored, whatever the snapshot
    and the removal flag. *)
Theorem load_checkpoint_cases (self : EvolutionTrainer Session)
    (verbose remove_nonfinite_checkpoints : bool) :
  (∀ evo iteration path,
     _init_snapshot self = Some (evo, iteration, path) →
     evo ≠ _current_evolution self →
     load_checkpoint self None verbose remove_nonfinite_checkpoints
     = [Stdout ["loading"%string; path];
        OptimisticRestore path (Passed (Some ["global_step"%string])) verbose
          (Passed remove_nonfinite_checkpoints)]) ∧
  (∀ evo iteration path,
     _init_snapshot self = Some (evo, iteration, path) →
     evo = _current_evolution self →
     load_checkpoint self None verbose remove_nonfinite_checkpoints
     = [Stdout ["loading"%string; path];
        OptimisticRestore path (Passed None) verbose
          (Passed remove_nonfinite_checkpoints)]) ∧
  (_init_snapshot self = None →
     load_checkpoint self None verbose remove_nonfinite_checkpoints
     = [Stdout ["nothing to restore. no checkpoint found."%string]]) ∧
  (∀ path, path ≠ EmptyString →
     load_checkpoint self (Some path) verbose remove_nonfinite_checkpoints
     = [Stdout ["loading"%string; path];
        OptimisticRestore path NotPassed verbose NotPassed]).
Proof.
  unfold load_checkpoint. split_and!.
  - intros evo iteration path -> Hne. simpl.
    by rewrite bool_decide_eq_false_2.
  - intros evo iteration path -> ->. simpl.
    by rewrite bool_decide_eq_true_2.
  - intros ->. done.
  - intros path Hne. by rewrite given_path_nonempty.
Qed.

(** ** Sorting *)

#[local] Instance tuple_le_total : Total Py.tuple_le.
Proof.
  intros [a p] [b q]. unfold Py.tuple_le; simpl.
  destruct (Z.lt_trichotomy a b) as [H|[->|H]].
  - left. by left.
  - destruct (String.leb_total p q); [left | right]; by right.
  - right. by left.
Qed.

Lemma Sorted_weaken {A} (R R' : relation A) l :
  (∀ x y, R x y → R' x y) → Sorted R l → Sorted R' l.
Proof.
  intros Himp. induction 1 as [|x l _ IH Hhd]; constructor; [done |].
  destruct Hhd; constructor. by apply Himp.
Qed.

Lemma StronglySorted_last {A} (R : relation A) `{!Reflexive R} l x :
  StronglySorted R l → last l = Some x → ∀ y, y ∈ l → R y x.
Proof.
  induction 1 as [|z l Hs IH Hall]; intros Hlast y Hy.
  - by apply not_elem_of_nil in Hy.
  - destruct l as [|z' l'].
    + simpl in Hlast. injection Hlast as <-.
      apply list_elem_of_singleton in Hy as ->. done.
    + rewrite last_cons_cons in Hlast.
      apply elem_of_cons in Hy as [->|Hy]; [| by apply IH].
      rewrite Forall_forall in Hall. apply Hall.
      by apply last_Some_elem_of.
Qed.

Lemma sorted_last_max (l : list (Z * string)) :
  l ≠ [] →
  ∃ iteration path,
    last (Py.sorted l) = Some (iteration, path) ∧
    (iteration, path) ∈ l ∧
    ∀ iteration' path', (iteration', path') ∈ l → iteration' ≤ iteration.
Proof.
  intros Hne. unfold Py.sorted.
  pose proof (merge_sort_Permutation Py.tuple_le l) as Hperm.
  destruct (last (merge_sort Py.tuple_le l)) as [[iteration path]|] eqn:Hlast.
  - exists iteration, path. split; [done |]. split.
    + rewrite <- Hperm. by apply last_Some_elem_of.
    + intros iteration' path' Hin.
      pose proof (Sorted_merge_sort Py.tuple_le l) as Hsorted.
      apply (Sorted_weaken _ (λ x y : Z * string, x.1 ≤ y.1)) in Hsorted.
      * apply Sorted_StronglySorted in Hsorted.
        -- assert (Reflexive (λ x y : Z * string, x.1 ≤ y.1)) as Hrefl.
           { intros x. apply Z.le_refl. }
           apply (StronglySorted_last _ _ _ Hsorted Hlast (iteration', path')).
           by rewrite Hperm.
        -- intros x y z Hxy Hyz. by etrans.
      * intros x y [H|[H _]]; simpl; lia.
  - apply last_None in Hlast. rewrite Hlast in Hperm.
    symmetry in Hperm. by apply Permutation_nil_r in Hperm.
Qed.

Lemma sorted_nil : Py.sorted [] = [].
Proof. reflexivity. Qed.

(** ** The snapshot blocks *)

Lemma last_as_Some evo l iteration path :
  last l = Some (iteration, path) → last_as evo l = Some (evo, iteration, path).
Proof. unfold last_as. by intros ->. Qed.

Lemma last_as_None evo l : last_as evo l = None ↔ l = [].
Proof.
  unfold last_as. rewrite <- last_None.
  destruct (last l) as [[? ?]|]; split; done.
Qed.

(** For a stage with a non-empty name, the snapshot of the current stage is
    the entry with the highest iteration among the checkpoints and the
    recovery checkpoints of that stage, under the stage's name. *)
Lemma snapshot_from_current_highest train_dir current_evo :
  current_evo ≠ EmptyString →
  let found :=
    (retrieve_all_checkpoints
       (Os.path_join train_dir
          [current_evo; CHECKPOINTS_DIR; CHECKPOINTS_FILE_PREFIX])
     ++ retrieve_all_checkpoints
       (Os.path_join train_dir
          [current_evo; RECOVERY_CHECKPOINTS_DIR; CHECKPOINTS_FILE_PREFIX]))%list in
  found ≠ [] →
  ∃ iteration path,
    snapshot_from_current train_dir current_evo
    = Some (current_evo, iteration, path) ∧
    (iteration, path) ∈ found ∧
    ∀ iteration' path', (iteration', path') ∈ found → iteration' ≤ iteration.
Proof.
  intros Hname found Hfound.
  destruct (sorted_last_max found Hfound) as (iteration & path & Hlast & Hin & Hmax).
  exists iteration, path. split; [| done].
  unfold snapshot_from_current.
  destruct current_evo; [done |]. simpl.
  by apply last_as_Some.
Qed.

Lemma snapshot_from_current_empty train_dir current_evo :
  retrieve_all_checkpoints
    (Os.path_join train_dir
       [current_evo; CHECKPOINTS_DIR; CHECKPOINTS_FILE_PREFIX]) = [] →
  retrieve_all_checkpoints
    (Os.path_join train_dir
       [current_evo; RECOVERY_CHECKPOINTS_DIR; CHECKPOINTS_FILE_PREFIX]) = [] →
  snapshot_from_current train_dir current_evo = None.
Proof.
  intros H1 H2. unfold snapshot_from_current.
  destruct (Py.truthy current_evo); [| done].
  cbv zeta. rewrite H1, H2. done.
Qed.

(** The snapshot of the previous stage is the last entry of the list that
    checkpoint discovery returns for its checkpoint directory. *)
Lemma snapshot_from_previous_last train_dir previous_evo :
  previous_evo ≠ EmptyString →
  snapshot_from_previous train_dir (Some previous_evo) None
  = last_as previous_evo
      (retrieve_all_checkpoints
         (Os.path_join train_dir
            [previous_evo; CHECKPOINTS_DIR; CHECKPOINTS_FILE_PREFIX])).
Proof. intros H. unfold snapshot_from_previous. by destruct previous_evo. Qed.

Lemma snapshot_from_previous_keeps train_dir previous_evo snapshot :
  snapshot_from_previous train_dir previous_evo (Some snapshot) = Some snapshot.
Proof. unfold snapshot_from_previous. by destruct previous_evo. Qed.

(** ** Resolution of the current stage *)

Lemma reverse_scan {A} (P : A → Prop) `{!∀ x, Decision (P x)} (l : list A) :
  match snd <$> list_find P (reverse l) with
  | Some x =>
      ∃ i, l !! i = Some x ∧ P x ∧
           ∀ j y, (i < j)%nat → l !! j = Some y → ¬ P y
  | None => ∀ y, y ∈ l → ¬ P y
  end.
Proof.
  destruct (list_find P (reverse l)) as [[k x]|] eqn:Hfind; simpl.
  - apply list_find_Some in Hfind as (Hk & Hx & Hbefore).
    apply reverse_lookup_Some in Hk as [Hk Hlen].
    exists (length l - S k)%nat. split_and!; [done | done |].
    intros j y Hj Hy.
    assert (j < length l)%nat as Hjlen by (by eapply lookup_lt_Some).
    apply (Hbefore (length l - S j)%nat); [| lia].
    apply reverse_lookup_Some. split; [| lia].
    by replace (length l - S (length l - S j))%nat with j by lia.
  - apply list_find_None in Hfind.
    rewrite Forall_forall in Hfind.
    intros y Hy. apply Hfind. by apply elem_of_reverse.
Qed.

(** What the function returns on a non-empty list when the override, if
    there is one, is in the list. *)
Lemma retrieve_Ok fs train_dir evolutions force_evo :
  evolutions ≠ [] →
  (∀ evo, force_evo = Some evo → evo ∈ evolutions) →
  ∃ current_evo i,
    first_position evolutions current_evo i ∧
    match force_evo with
    | Some evo => current_evo = evo
    | None =>
        match snd <$> list_find
                (λ evo, Os.path_isdir fs (Os.path_join train_dir [evo]) = true)
                (reverse evolutions) with
        | Some evo => current_evo = evo
        | None => evolutions !! 0%nat = Some current_evo
        end
    end ∧
    _retrieve_current_evolution_and_last_snapshot
      fs train_dir evolutions force_evo
    = Ok (current_evo,
          snapshot_from_previous train_dir
            (if bool_decide (0 < i)%nat then evolutions !! (i - 1)%nat else None)
            (snapshot_from_current train_dir current_evo)).
Proof.
  intros Hne Hforce.
  unfold _retrieve_current_evolution_and_last_snapshot.
  set (scan := snd <$> list_find _ (reverse evolutions)).
  assert (∃ current_evo,
    current_evo ∈ evolutions ∧
    match match force_evo with Some evo => Some evo | None => scan end with
    | Some evo => Ok evo
    | None => Py.item evolutions 0
    end = Ok current_evo ∧
    match force_evo with
    | Some evo => current_evo = evo
    | None => match scan with
              | Some evo => current_evo = evo
              | None => evolutions !! 0%nat = Some current_evo
              end
    end) as (current_evo & Hin & Hcur & Hwhich).
  { destruct force_evo as [evo|].
    - exists evo. split_and!; [by apply Hforce | done | done].
    - pose proof (reverse_scan
        (λ evo, Os.path_isdir fs (Os.path_join train_dir [evo]) = true)
        evolutions) as Hscan.
      fold scan in Hscan. destruct scan as [evo|].
      + destruct Hscan as (i & Hi & _).
        exists evo. split_and!; [by eapply list_elem_of_lookup_2 | done | done].
      + destruct evolutions as [|evo rest]; [done |].
        exists evo. split_and!; [by left | done | done]. }
  destruct (index_elem _ _ Hin) as (i & Hi & Hpos).
  exists current_evo, i. split_and!; [done | done |].
  rewrite Hcur. simpl. rewrite Hi. simpl.
  destruct (bool_decide (0 < i)%nat) eqn:Hpos0; [| done].
  apply bool_decide_eq_true in Hpos0.
  destruct Hpos as [Hlook _].
  assert (i < length evolutions)%nat as Hlen by (by eapply lookup_lt_Some).
  destruct (lookup_lt_is_Some_2 evolutions (i - 1)%nat) as [previous_evo Hprev]; [lia |].
  unfold Py.item. rewrite Hprev. done.
Qed.

(** C2: on a non-empty stage list and without an override, the resolved
    current stage is the stage with the highest position in the list whose
    directory exists, and the first stage of the list when the directory of
    no stage exists. *)
Theorem resolution_selects_last_existing fs train_dir evolutions :
  evolutions ≠ [] →
  ∃ current_evo snapshot,
    _retrieve_current_evolution_and_last_snapshot fs train_dir evolutions None
    = Ok (current_evo, snapshot) ∧
    ((∃ i, evolutions !! i = Some current_evo ∧
           Os.path_isdir fs (Os.path_join train_dir [current_evo]) = true ∧
           ∀ j evo, (i < j)%nat → evolutions !! j = Some evo →
                    Os.path_isdir fs (Os.path_join train_dir [evo]) = false)
     ∨ ((∀ evo, evo ∈ evolutions →
                Os.path_isdir fs (Os.path_join train_dir [evo]) = false) ∧
        evolutions !! 0%nat = Some current_evo)).
Proof.
  intros Hne.
  destruct (retrieve_Ok fs train_dir evolutions None Hne) as
    (current_evo & i & Hpos & Hwhich & Heq); [done |].
  eexists current_evo, _. split; [exact Heq |].
  pose proof (reverse_scan
    (λ evo, Os.path_isdir fs (Os.path_join train_dir [evo]) = true)
    evolutions) as Hscan.
  destruct (snd <$> list_find _ (reverse evolutions)) as [evo|].
  - subst evo. destruct Hscan as (k & Hk & Hdir & Hafter).
    left. exists k. split_and!; [done | done |].
    intros j evo Hj Hevo. apply not_true_is_false. by eapply Hafter.
  - right. split; [| done].
    intros evo Hevo. apply not_true_is_false. by apply Hscan.
Qed.

(** ** Validation of the stage names *)

Lemma invalid_names_reserved x : x ∈ invalid_names ↔ reserved x.
Proof.
  unfold invalid_names, reserved.
  rewrite !elem_of_cons, elem_of_nil. tauto.
Qed.

Lemma check_invalid_Ok evolutions :
  (∀ x, x ∈ evolutions → ¬ reserved x) → check_invalid evolutions = Ok ().
Proof.
  induction evolutions as [|evo rest IH]; intros H; simpl; [done |].
  assert (Py.contains invalid_names evo = false) as ->.
  { apply contains_false. rewrite invalid_names_reserved. apply H. by left. }
  apply IH. intros x Hx. apply H. by right.
Qed.

Lemma check_invalid_Raise evolutions :
  (∃ x, x ∈ evolutions ∧ reserved x) →
  ∃ x, x ∈ evolutions ∧ reserved x ∧
    check_invalid evolutions
    = Raise (ValueError (Py.dq +:+ x +:+ Py.dq +:+ " is not a valid evo name!")).
Proof.
  induction evolutions as [|evo rest IH]; intros (x & Hx & Hres); simpl.
  - by apply not_elem_of_nil in Hx.
  - destruct (Py.contains invalid_names evo) eqn:Hc.
    + apply contains_true, invalid_names_reserved in Hc.
      exists evo. split_and!; [by left | done | done].
    + apply contains_false in Hc. rewrite invalid_names_reserved in Hc.
      apply elem_of_cons in Hx as [->|Hx]; [done |].
      destruct IH as (y & Hy & Hyres & ->); [by exists x |].
      exists y. split_and!; [by right | done | done].
Qed.

Lemma check_unique_Ok evo_set evolutions :
  NoDup evolutions → (∀ x, x ∈ evolutions → x ∉ evo_set) →
  check_unique evo_set evolutions = Ok ().
Proof.
  revert evo_set.
  induction evolutions as [|evo rest IH]; intros evo_set Hnd Hfresh; simpl; [done |].
  apply NoDup_cons in Hnd as [Hevo Hnd].
  rewrite bool_decide_eq_false_2; [| apply Hfresh; by left]. simpl.
  apply IH; [done |].
  intros x Hx. apply not_elem_of_union. split.
  - intros ->%elem_of_singleton. done.
  - apply Hfresh. by right.
Qed.

Lemma repeated_cons x y l : repeated l x → repeated (y :: l) x.
Proof.
  intros (i & j & Hij & Hi & Hj). exists (S i), (S j).
  split_and!; [lia | done | done].
Qed.

Lemma repeated_head x l : x ∈ l → repeated (x :: l) x.
Proof.
  intros [k Hk]%list_elem_of_lookup_1. exists 0%nat, (S k).
  split_and!; [lia | done | done].
Qed.

Lemma repeated_not_NoDup l x : repeated l x → ¬ NoDup l.
Proof.
  intros (i & j & Hij & Hi & Hj) Hnd.
  pose proof (NoDup_lookup l i j x Hnd Hi Hj). lia.
Qed.

Lemma check_unique_Raise evo_set evolutions :
  ¬ (NoDup evolutions ∧ ∀ x, x ∈ evolutions → x ∉ evo_set) →
  ∃ x, x ∈ evolutions ∧ (x ∈ evo_set ∨ repeated evolutions x) ∧
    check_unique evo_set evolutions
    = Raise (ValueError ("There are at least two evolutions named "
                           +:+ Py.dq +:+ x +:+ Py.dq +:+ "!")).
Proof.
  revert evo_set.
  induction evolutions as [|evo rest IH]; intros evo_set Hbad.
  - exfalso. apply Hbad. split; [constructor |].
    intros x Hx. by apply not_elem_of_nil in Hx.
  - simpl. destruct (decide (evo ∈ evo_set)) as [Hin|Hnotin].
    + rewrite bool_decide_eq_true_2 by done. simpl.
      exists evo. split_and!; [by left | by left | done].
    + rewrite bool_decide_eq_false_2 by done. simpl.
      destruct (IH ({[evo]} ∪ evo_set)) as (x & Hx & Hwhy & ->).
      { intros [Hnd Hfresh]. apply Hbad. split.
        - apply NoDup_cons. split; [| done].
          intros Hevo. apply (Hfresh evo Hevo). set_solver.
        - intros x [->|Hx]%elem_of_cons; [done |].
          intros Hxs. apply (Hfresh x Hx). set_solver. }
      exists x. split_and!; [by right | | done].
      destruct Hwhy as [[->%elem_of_singleton|Hs]%elem_of_union|Hrep].
      * right. by apply repeated_head.
      * by left.
      * right. by apply repeated_cons.
Qed.

Lemma check_names_Ok evolutions :
  NoDup evolutions → (∀ x, x ∈ evolutions → ¬ reserved x) →
  _check_evolution_names evolutions = Ok ().
Proof.
  intros Hnd Hres. unfold _check_evolution_names.
  rewrite check_invalid_Ok by done. simpl.
  apply check_unique_Ok; [done |]. intros x _. set_solver.
Qed.

Lemma check_names_Ok_inv evolutions :
  _check_evolution_names evolutions = Ok () →
  NoDup evolutions ∧ ∀ x, x ∈ evolutions → ¬ reserved x.
Proof.
  unfold _check_evolution_names. intros Hok.
  assert (∀ x, x ∈ evolutions → ¬ reserved x) as Hres.
  { intros x Hx Hr.
    destruct (check_invalid_Raise evolutions) as (y & _ & _ & Heq); [by exists x |].
    rewrite Heq in Hok. done. }
  split; [| done].
  rewrite check_invalid_Ok in Hok by done. simpl in Hok.
  destruct (decide (NoDup evolutions)) as [|Hnd]; [done |].
  destruct (check_unique_Raise ∅ evolutions) as (y & _ & _ & Heq).
  { intros [? _]. done. }
  rewrite Heq in Hok. done.
Qed.

(** ** Construction *)

Lemma first_position_index l x i : first_position l x i → Py.index l x = Ok i.
Proof. intros H. unfold Py.index. by rewrite (proj2 (find_index_first l x i) H). Qed.

Lemma first_position_zero l x i :
  first_position l x i → (l !! 0%nat = Some x ↔ i = 0%nat).
Proof.
  intros [Hi Hbefore]. split; [| by intros ->].
  intros H0. destruct i as [|i]; [done |].
  exfalso. apply (Hbefore 0%nat); [lia | done].
Qed.

(** Once the names are validated and the override is known, construction
    resolves the stage and then only checks the seed. *)
Lemma init_resolved fs (session : Session) train_dir arg evolutions force_evo :
  arg = PyList evolutions ∨ arg = PyTuple evolutions →
  _check_evolution_names evolutions = Ok () →
  evolutions ≠ [] →
  (∀ evo, force_evo = Some evo → evo ∈ evolutions) →
  ∃ current_evo i snapshot,
    first_position evolutions current_evo i ∧
    _retrieve_current_evolution_and_last_snapshot
      fs train_dir evolutions force_evo = Ok (current_evo, snapshot) ∧
    __init__ fs session train_dir arg force_evo
    = if bool_decide (0 < i)%nat && bool_decide (snapshot = None) then
        Raise (RuntimeError
                 (Py.dq +:+ current_evo +:+ Py.dq +:+
                  " is not the first evolution and no init snapshot was found for the previous evolution"))
      else
        Ok {| _session := session;
              _train_dir := train_dir;
              _evolutions := evolutions;
              _current_evolution := current_evo;
              _init_snapshot := snapshot;
              _current_evolution_dir := Os.path_join train_dir [current_evo];
              _simpletrainer :=
                {| st_session := session;
                   st_train_dir := Os.path_join train_dir [current_evo] |} |}.
Proof.
  intros Harg Hcheck Hne Hforce.
  destruct (retrieve_Ok fs train_dir evolutions force_evo Hne Hforce)
    as (current_evo & i & Hpos & _ & Heq).
  eexists current_evo, i, _. split; [done |]. split; [exact Heq |].
  unfold __init__.
  assert (names_of arg = evolutions) as -> by (by destruct Harg as [->| ->]).
  rewrite Hcheck. simpl.
  assert (match arg with
          | PyList l | PyTuple l => Ok l
          | PyOther _ =>
              Raise (ValueError ("invalid argument for " +:+ Py.dq +:+ "evolutions" +:+ Py.dq))
          end = Ok evolutions) as -> by (by destruct Harg as [->| ->]).
  simpl.
  rewrite bool_decide_eq_false_2 by (by destruct evolutions).
  assert (match force_evo with
          | Some evo =>
              if negb (Py.contains evolutions evo)
              then Raise (ValueError (evo +:+ " is not in the evolution list"))
              else Ok ()
          | None => Ok ()
          end = Ok ()) as ->.
  { destruct force_evo as [evo|]; [| done].
    by rewrite (proj2 (contains_true evolutions evo) (Hforce evo eq_refl)). }
  simpl. rewrite Heq. simpl.
  rewrite (first_position_index _ _ _ Hpos). simpl. done.
Qed.

(** The snapshot is absent when discovery finds nothing for the current
    stage, in either directory, nor in the checkpoint directory of the stage
    before it. *)
Lemma retrieve_without_checkpoints fs train_dir evolutions force_evo
    current_evo snapshot :
  _retrieve_current_evolution_and_last_snapshot
    fs train_dir evolutions force_evo = Ok (current_evo, snapshot) →
  retrieve_all_checkpoints
    (Os.path_join train_dir
       [current_evo; CHECKPOINTS_DIR; CHECKPOINTS_FILE_PREFIX]) = [] →
  retrieve_all_checkpoints
    (Os.path_join train_dir
       [current_evo; RECOVERY_CHECKPOINTS_DIR; CHECKPOINTS_FILE_PREFIX]) = [] →
  (∀ previous_evo,
     retrieve_all_checkpoints
       (Os.path_join train_dir
          [previous_evo; CHECKPOINTS_DIR; CHECKPOINTS_FILE_PREFIX]) = []) →
  snapshot = None.
Proof.
  unfold _retrieve_current_evolution_and_last_snapshot.
  intros Heq H1 H2 H3.
  destruct (match match force_evo with Some _ => _ | None => _ end with
            | Some evo => Ok evo | None => _ end) as [cur|]; [| done].
  simpl in Heq. destruct (Py.index evolutions cur) as [i|]; [| done].
  simpl in Heq.
  destruct (if bool_decide (0 < i)%nat then _ else _) as [previous_evo|]; [| done].
  simpl in Heq. injection Heq as -> <-.
  rewrite (snapshot_from_current_empty _ _ H1 H2).
  unfold snapshot_from_previous.
  destruct previous_evo as [previous_evo|]; [| done].
  destruct (Py.truthy previous_evo); [| done].
  cbv zeta. rewrite H3. done.
Qed.

(** C4: when the names are valid and resolution yields a current stage
    without any seed snapshot, construction raises the fatal error if that
    stage is not the first of the list, and succeeds, with no snapshot, if
    it is the first. *)
Theorem init_needs_seed_after_first_stage fs (session : Session) train_dir
    arg evolutions force_evo current_evo :
  arg = PyList evolutions ∨ arg = PyTuple evolutions →
  _check_evolution_names evolutions = Ok () →
  (∀ evo, force_evo = Some evo → evo ∈ evolutions) →
  _retrieve_current_evolution_and_last_snapshot
    fs train_dir evolutions force_evo = Ok (current_evo, None) →
  (evolutions !! 0%nat ≠ Some current_evo →
     __init__ fs session train_dir arg force_evo
     = Raise (RuntimeError
                (Py.dq +:+ current_evo +:+ Py.dq +:+
                 " is not the first evolution and no init snapshot was found for the previous evolution"))) ∧
  (evolutions !! 0%nat = Some current_evo →
     ∃ self, __init__ fs session train_dir arg force_evo = Ok self ∧
             _current_evolution self = current_evo ∧
             _init_snapshot self = None).
Proof.
  intros Harg Hcheck Hforce Hretr.
  assert (evolutions ≠ []) as Hne.
  { intros ->. destruct force_evo as [evo|]; [| done].
    specialize (Hforce evo eq_refl). by apply not_elem_of_nil in Hforce. }
  destruct (init_resolved fs session train_dir arg evolutions force_evo
              Harg Hcheck Hne Hforce)
    as (cur & i & snap & Hpos & Hretr' & ->).
  rewrite Hretr in Hretr'. injection Hretr' as <- <-.
  pose proof (first_position_zero _ _ _ Hpos) as Hzero.
  split.
  - intros Hnot.
    rewrite bool_decide_eq_true_2; [done |].
    destruct i; [by destruct Hnot; apply Hzero | lia].
  - intros Hfirst. apply Hzero in Hfirst as ->.
    rewrite bool_decide_eq_false_2 by lia. simpl.
    eexists. split; [done |]. done.
Qed.

Lemma init_Ok_inv fs (session : Session) train_dir arg force_evo self :
  __init__ fs session train_dir arg force_evo = Ok self →
  ∃ evolutions,
    (arg = PyList evolutions ∨ arg = PyTuple evolutions) ∧
    _check_evolution_names evolutions = Ok () ∧
    evolutions ≠ [] ∧
    (∀ evo, force_evo = Some evo → evo ∈ evolutions).
Proof.
  unfold __init__. intros Hinit.
  destruct (_check_evolution_names (names_of arg)) as [[]|] eqn:Hcheck; [| done].
  simpl in Hinit.
  assert (∃ evolutions, arg = PyList evolutions ∨ arg = PyTuple evolutions)
    as [evolutions Harg].
  { destruct arg as [l|l|l]; [by exists l; left | by exists l; right | done]. }
  exists evolutions.
  assert (names_of arg = evolutions) as Hnames by (by destruct Harg as [->| ->]).
  rewrite Hnames in Hcheck.
  assert (match arg with
          | PyList l | PyTuple l => Ok l
          | PyOther _ =>
              Raise (ValueError ("invalid argument for " +:+ Py.dq +:+ "evolutions" +:+ Py.dq))
          end = Ok evolutions) as Hself by (by destruct Harg as [->| ->]).
  rewrite Hself in Hinit. simpl in Hinit.
  split_and!; [done | done | |].
  - intros ->. done.
  - intros evo ->.
    destruct (bool_decide (length evolutions = 0%nat)); [done |].
    destruct (Py.contains evolutions evo) eqn:Hc; [| done].
    by apply contains_true.
Qed.

(** What holds of every trainer that construction returns. *)
Lemma init_invariants fs (session : Session) train_dir arg force_evo self :
  __init__ fs session train_dir arg force_evo = Ok self →
  (arg = PyList (_evolutions self) ∨ arg = PyTuple (_evolutions self)) ∧
  NoDup (_evolutions self) ∧
  _train_dir self = train_dir ∧
  (∀ evo, force_evo = Some evo → _current_evolution self = evo) ∧
  _retrieve_current_evolution_and_last_snapshot
    fs train_dir (_evolutions self) force_evo
  = Ok (_current_evolution self, _init_snapshot self) ∧
  _current_evolution_dir self = Os.path_join train_dir [_current_evolution self] ∧
  st_train_dir (_simpletrainer self) = _current_evolution_dir self ∧
  ∃ i, first_position (_evolutions self) (_current_evolution self) i ∧
       ((0 < i)%nat → _init_snapshot self ≠ None).
Proof.
  intros Hinit.
  destruct (init_Ok_inv _ _ _ _ _ _ Hinit)
    as (evolutions & Harg & Hcheck & Hne & Hforce).
  destruct (retrieve_Ok fs train_dir evolutions force_evo Hne Hforce)
    as (cur & i & Hpos & Hwhich & Hretr).
  destruct (init_resolved fs session train_dir arg evolutions force_evo
              Harg Hcheck Hne Hforce)
    as (cur' & i' & snap & Hpos' & Hretr' & Heq).
  rewrite Hretr in Hretr'. injection Hretr' as <- Hsnap.
  assert (i' = i) as -> by (by eapply first_position_unique).
  rewrite Hinit in Heq.
  destruct (bool_decide (0 < i)%nat && bool_decide (snap = None)) eqn:Hguard;
    [done |].
  injection Heq as ->. simpl.
  split_and!; try done.
  - by apply check_names_Ok_inv in Hcheck as [? _].
  - intros evo ->. done.
  - by rewrite Hretr, Hsnap.
  - exists i. split; [done |]. intros Hi ->.
    rewrite bool_decide_eq_true_2 in Hguard by done.
    rewrite bool_decide_eq_true_2 in Hguard by done. done.
Qed.

Lemma init_override_not_in_list fs (session : Session) train_dir arg
    evolutions evo :
  arg = PyList evolutions ∨ arg = PyTuple evolutions →
  _check_evolution_names evolutions = Ok () → evolutions ≠ [] →
  evo ∉ evolutions →
  __init__ fs session train_dir arg (Some evo)
  = Raise (ValueError (evo +:+ " is not in the evolution list")).
Proof.
  intros Harg Hcheck Hne Hnot. unfold __init__.
  assert (names_of arg = evolutions) as -> by (by destruct Harg as [->| ->]).
  rewrite Hcheck. simpl.
  assert (match arg with
          | PyList l | PyTuple l => Ok l
          | PyOther _ =>
              Raise (ValueError ("invalid argument for " +:+ Py.dq +:+ "evolutions" +:+ Py.dq))
          end = Ok evolutions) as -> by (by destruct Harg as [->| ->]).
  simpl. rewrite bool_decide_eq_false_2 by (by destruct evolutions).
  by rewrite (proj2 (contains_false evolutions evo) Hnot).
Qed.

(** C6: with an override that is not in the stage list construction fails
    (with the not-in-list error once the names are validated); an override
    that is in the list is the resolved current stage whatever directories
    exist, and is the current stage of every trainer constructed with it. *)
Theorem override_membership_and_effect fs (session : Session) train_dir arg evo :
  (evo ∉ names_of arg →
     ∃ e, __init__ fs session train_dir arg (Some evo) = Raise e) ∧
  (∀ evolutions,
     arg = PyList evolutions ∨ arg = PyTuple evolutions →
     _check_evolution_names evolutions = Ok () → evolutions ≠ [] →
     evo ∉ evolutions →
     __init__ fs session train_dir arg (Some evo)
     = Raise (ValueError (evo +:+ " is not in the evolution list"))) ∧
  (evo ∈ names_of arg →
     ∀ fs', ∃ snapshot,
       _retrieve_current_evolution_and_last_snapshot
         fs' train_dir (names_of arg) (Some evo) = Ok (evo, snapshot)) ∧
  (∀ self, __init__ fs session train_dir arg (Some evo) = Ok self →
           _current_evolution self = evo).
Proof.
  split_and!; [| intros evolutions; apply init_override_not_in_list | |].
  - intros Hnot.
    destruct (__init__ fs session train_dir arg (Some evo)) as [self|e] eqn:Hinit;
      [| by exists e].
    exfalso. apply Hnot.
    destruct (init_Ok_inv _ _ _ _ _ _ Hinit)
      as (evolutions & Harg & _ & _ & Hforce).
    destruct Harg as [->| ->]; simpl; by apply Hforce.
  - intros Hin fs'.
    destruct (retrieve_Ok fs' train_dir (names_of arg) (Some evo))
      as (cur & i & _ & -> & Heq).
    + intros Hnil. rewrite Hnil in Hin. by apply not_elem_of_nil in Hin.
    + by intros ? [= <-].
    + eexists. exact Heq.
  - intros self Hinit.
    apply init_invariants in Hinit as (_ & _ & _ & Hforce & _).
    by apply Hforce.
Qed.

(** C9: for a stage list that is non-empty, free of duplicates and free of
    reserved names the name check passes and construction can only fail
    later, on the override or on the seed; an empty list, a reserved name
    and a repeated name each raise their configuration error, and then no
    trainer is returned. *)
Theorem construction_validates_stage_list fs (session : Session) train_dir
    arg evolutions force_evo :
  arg = PyList evolutions ∨ arg = PyTuple evolutions →
  (evolutions ≠ [] → NoDup evolutions →
   (∀ x, x ∈ evolutions → ¬ reserved x) →
     _check_evolution_names evolutions = Ok () ∧
     ((∃ self, __init__ fs session train_dir arg force_evo = Ok self ∧
               _evolutions self = evolutions) ∨
      (∃ evo, force_evo = Some evo ∧ (evo ∉ evolutions) ∧
              __init__ fs session train_dir arg force_evo
              = Raise (ValueError (evo +:+ " is not in the evolution list"))) ∨
      (∃ current_evo,
         _retrieve_current_evolution_and_last_snapshot
           fs train_dir evolutions force_evo = Ok (current_evo, None) ∧
         evolutions !! 0%nat ≠ Some current_evo ∧
         __init__ fs session train_dir arg force_evo
         = Raise (RuntimeError
                    (Py.dq +:+ current_evo +:+ Py.dq +:+
                     " is not the first evolution and no init snapshot was found for the previous evolution"))))) ∧
  (evolutions = [] →
     __init__ fs session train_dir arg force_evo
     = Raise (ValueError "evolution list is empty!")) ∧
  ((∃ x, x ∈ evolutions ∧ reserved x) →
     ∃ x, x ∈ evolutions ∧ reserved x ∧
       __init__ fs session train_dir arg force_evo
       = Raise (ValueError (Py.dq +:+ x +:+ Py.dq +:+ " is not a valid evo name!"))) ∧
  ((∀ x, x ∈ evolutions → ¬ reserved x) → ¬ NoDup evolutions →
     ∃ x, repeated evolutions x ∧
       __init__ fs session train_dir arg force_evo
       = Raise (ValueError ("There are at least two evolutions named "
                              +:+ Py.dq +:+ x +:+ Py.dq +:+ "!"))).
Proof.
  intros Harg.
  assert (names_of arg = evolutions) as Hnames by (by destruct Harg as [->| ->]).
  split_and!.
  - intros Hne Hnd Hres.
    pose proof (check_names_Ok evolutions Hnd Hres) as Hcheck.
    split; [done |].
    destruct force_evo as [evo|].
    + destruct (decide (evo ∈ evolutions)) as [Hin|Hnot].
      * destruct (init_resolved fs session train_dir arg evolutions (Some evo)
                    Harg Hcheck Hne) as (cur & i & snap & Hpos & Hretr & Heq).
        { by intros ? [= <-]. }
        destruct (bool_decide (0 < i)%nat && bool_decide (snap = None)) eqn:Hguard.
        -- right. right. exists cur.
           apply andb_true_iff in Hguard as [Hi Hsnap].
           apply bool_decide_eq_true in Hi, Hsnap. subst snap.
           split_and!; [done | | done].
           rewrite (first_position_zero _ _ _ Hpos). lia.
        -- left. eexists. split; [exact Heq | done].
      * right. left. exists evo. split_and!; [done | done |].
        by apply (init_override_not_in_list _ _ _ _ evolutions).
    + destruct (init_resolved fs session train_dir arg evolutions None
                  Harg Hcheck Hne) as (cur & i & snap & Hpos & Hretr & Heq);
        [done |].
      destruct (bool_decide (0 < i)%nat && bool_decide (snap = None)) eqn:Hguard.
      * right. right. exists cur.
        apply andb_true_iff in Hguard as [Hi Hsnap].
        apply bool_decide_eq_true in Hi, Hsnap. subst snap.
        split_and!; [done | | done].
        rewrite (first_position_zero _ _ _ Hpos). lia.
      * left. eexists. split; [exact Heq | done].
  - intros ->. by destruct Harg as [->| ->].
  - intros Hres.
    destruct (check_invalid_Raise evolutions Hres) as (x & Hx & Hr & Heq).
    exists x. split_and!; [done | done |].
    unfold __init__, _check_evolution_names. rewrite Hnames, Heq. done.
  - intros Hres Hnd.
    destruct (check_unique_Raise ∅ evolutions) as (x & Hx & Hwhy & Heq).
    { intros [? _]. done. }
    exists x. split.
    + destruct Hwhy as [Hempty|Hrep]; [| done]. set_solver.
    + unfold __init__, _check_evolution_names.
      rewrite Hnames, (check_invalid_Ok _ Hres). simpl. rewrite Heq. done.
Qed.

(** ** The main loop *)

Lemma makedirs_isdir fs path : Os.path_isdir (Os.makedirs fs path) path = true.
Proof.
  unfold Os.path_isdir, Os.makedirs. apply bool_decide_eq_true. set_solver.
Qed.

Lemma makedirs_keeps fs path other :
  Os.path_isdir fs other = true →
  Os.path_isdir (Os.makedirs fs path) other = true.
Proof.
  unfold Os.path_isdir, Os.makedirs. rewrite !bool_decide_eq_true. set_solver.
Qed.

Lemma makedirs_twice fs path :
  Os.makedirs (Os.makedirs fs path) path = Os.makedirs fs path.
Proof.
  unfold Os.makedirs. apply set_eq. intros x.
  rewrite !elem_of_union. tauto.
Qed.

(** C1: for a constructed trainer and any status returned by the underlying
    main loop: on the finished code with a stage after the current one, the
    directory of that stage is created, whether or not it exists already,
    and the unfinished code is returned; on the finished code at the last
    stage the finished code is returned; any other status is returned as it
    is; in the last two cases the directory tree is left as the underlying
    loop left it. *)
Theorem mainloop_stage_transition fs0 (session : Session) train_dir arg
    force_evo self fs status fs' :
  __init__ fs0 session train_dir arg force_evo = Ok self →
  SimpleTrainer_mainloop (_simpletrainer self) fs = (status, fs') →
  ∃ i,
    first_position (_evolutions self) (_current_evolution self) i ∧
    (status = STATUS_TRAINING_FINISHED →
     ∀ next_evolution, _evolutions self !! (i + 1)%nat = Some next_evolution →
       let next_evolution_dir := Os.path_join train_dir [next_evolution] in
       mainloop self fs
       = Ok (STATUS_TRAINING_UNFINISHED, Os.makedirs fs' next_evolution_dir) ∧
       Os.path_isdir (Os.makedirs fs' next_evolution_dir) next_evolution_dir = true ∧
       (∀ path, Os.path_isdir fs' path = true →
                Os.path_isdir (Os.makedirs fs' next_evolution_dir) path = true)) ∧
    (status = STATUS_TRAINING_FINISHED →
     _evolutions self !! (i + 1)%nat = None →
       mainloop self fs = Ok (STATUS_TRAINING_FINISHED, fs')) ∧
    (status ≠ STATUS_TRAINING_FINISHED →
       mainloop self fs = Ok (status, fs')).
Proof.
  intros Hinit Hloop.
  apply init_invariants in Hinit
    as (_ & _ & Hdir & _ & _ & _ & _ & i & Hpos & _).
  exists i. split; [done |].
  unfold mainloop. rewrite Hloop.
  rewrite (first_position_index _ _ _ Hpos). simpl.
  split_and!.
  - intros -> next_evolution Hnext.
    rewrite bool_decide_eq_true_2 by done.
    rewrite bool_decide_eq_true_2 by (by eapply lookup_lt_Some).
    unfold Py.item. rewrite Hnext. simpl. rewrite Hdir.
    split_and!; [done | apply makedirs_isdir | apply makedirs_keeps].
  - intros -> Hlast.
    rewrite bool_decide_eq_true_2 by done.
    rewrite bool_decide_eq_false_2; [done |].
    apply lookup_ge_None in Hlast. lia.
  - intros Hother.
    rewrite bool_decide_eq_false_2 by done.
    by destruct (bool_decide (status = STATUS_TRAINING_NAN_LOSS)).
Qed.

(** ** More on resolution *)

Lemma retrieve_empty_list fs train_dir :
  _retrieve_current_evolution_and_last_snapshot fs train_dir [] None
  = Raise IndexError.
Proof. reflexivity. Qed.

Lemma retrieve_override_unknown fs train_dir evolutions evo :
  evo ∉ evolutions →
  _retrieve_current_evolution_and_last_snapshot fs train_dir evolutions (Some evo)
  = Raise (NotInList evo).
Proof.
  intros Hnot. unfold _retrieve_current_evolution_and_last_snapshot. simpl.
  unfold Py.index. by rewrite (find_index_not_elem _ _ Hnot).
Qed.

Lemma retrieve_Ok_inv fs train_dir evolutions force_evo current_evo snapshot :
  _retrieve_current_evolution_and_last_snapshot
    fs train_dir evolutions force_evo = Ok (current_evo, snapshot) →
  ∃ i,
    first_position evolutions current_evo i ∧
    snapshot
    = snapshot_from_previous train_dir
        (if bool_decide (0 < i)%nat then evolutions !! (i - 1)%nat else None)
        (snapshot_from_current train_dir current_evo).
Proof.
  intros Hretr.
  assert (evolutions ≠ [] ∧ ∀ evo, force_evo = Some evo → evo ∈ evolutions)
    as [Hne Hforce].
  { destruct force_evo as [evo|].
    - destruct (decide (evo ∈ evolutions)) as [Hin|Hnot].
      + split; [| by intros ? [= <-]].
        intros ->. by apply not_elem_of_nil in Hin.
      + by rewrite retrieve_override_unknown in Hretr.
    - split; [| done]. intros ->. by rewrite retrieve_empty_list in Hretr. }
  destruct (retrieve_Ok fs train_dir evolutions force_evo Hne Hforce)
    as (cur & i & Hpos & _ & Heq).
  rewrite Hretr in Heq. injection Heq as <- ->. by exists i.
Qed.

Lemma last_as_inv evo l evo' iteration path :
  last_as evo l = Some (evo', iteration, path) →
  evo' = evo ∧ last l = Some (iteration, path).
Proof.
  unfold last_as. destruct (last l) as [[it p]|]; [| done].
  by intros [= <- <- <-].
Qed.

Lemma snapshot_from_current_inv train_dir current_evo evo iteration path :
  snapshot_from_current train_dir current_evo = Some (evo, iteration, path) →
  evo = current_evo ∧ current_evo ≠ EmptyString ∧
  (iteration, path)
    ∈ (retrieve_all_checkpoints
         (Os.path_join train_dir
            [current_evo; CHECKPOINTS_DIR; CHECKPOINTS_FILE_PREFIX])
       ++ retrieve_all_checkpoints
         (Os.path_join train_dir
            [current_evo; RECOVERY_CHECKPOINTS_DIR; CHECKPOINTS_FILE_PREFIX]))%list.
Proof.
  unfold snapshot_from_current.
  destruct current_evo as [|c rest]; [done |]. cbv zeta iota beta delta [Py.truthy].
  intros [-> Hlast]%last_as_inv. split_and!; [done | done |].
  apply last_Some_elem_of in Hlast. unfold Py.sorted in Hlast.
  by rewrite merge_sort_Permutation in Hlast.
Qed.

Lemma snapshot_from_previous_inv train_dir previous_evo evo iteration path :
  snapshot_from_previous train_dir previous_evo None
  = Some (evo, iteration, path) →
  previous_evo = Some evo ∧ evo ≠ EmptyString ∧
  last (retrieve_all_checkpoints
          (Os.path_join train_dir
             [evo; CHECKPOINTS_DIR; CHECKPOINTS_FILE_PREFIX]))
  = Some (iteration, path).
Proof.
  unfold snapshot_from_previous.
  destruct previous_evo as [[|c rest]|]; [done | | done].
  cbv zeta iota beta delta [Py.truthy].
  intros [-> Hlast]%last_as_inv. done.
Qed.

(** X1: resolution called on its own fails in exactly two ways: on an empty
    stage list without an override the subscript [evolutions[0]] raises, and
    with an override outside the list [list.index] raises; in every other
    case it returns a stage of the list. *)
Theorem resolution_failures fs train_dir evolutions :
  (evolutions = [] →
     _retrieve_current_evolution_and_last_snapshot fs train_dir evolutions None
     = Raise IndexError) ∧
  (∀ evo, evo ∉ evolutions →
     _retrieve_current_evolution_and_last_snapshot
       fs train_dir evolutions (Some evo) = Raise (NotInList evo)) ∧
  (∀ force_evo,
     match force_evo with
     | None => evolutions ≠ []
     | Some evo => evo ∈ evolutions
     end →
     ∃ current_evo snapshot,
       _retrieve_current_evolution_and_last_snapshot
         fs train_dir evolutions force_evo = Ok (current_evo, snapshot) ∧
       current_evo ∈ evolutions).
Proof.
  split_and!.
  - intros ->. apply retrieve_empty_list.
  - intros evo. apply retrieve_override_unknown.
  - intros force_evo Hdom.
    destruct (retrieve_Ok fs train_dir evolutions force_evo)
      as (cur & i & [Hi _] & _ & Heq).
    + destruct force_evo as [evo|]; [| done].
      intros ->. by apply not_elem_of_nil in Hdom.
    + intros evo ->. done.
    + eexists cur, _. split; [exact Heq |].
      by eapply list_elem_of_lookup_2.
Qed.

(** X2: a resolved snapshot is either a checkpoint of the current stage, found
    in its checkpoint or recovery directory, or a checkpoint found in the
    checkpoint directory of the stage just before the current one, which
    then bears another name than the current stage. *)
Theorem seed_is_from_current_or_previous fs train_dir evolutions force_evo
    current_evo evo iteration path :
  _retrieve_current_evolution_and_last_snapshot
    fs train_dir evolutions force_evo
  = Ok (current_evo, Some (evo, iteration, path)) →
  (evo = current_evo ∧
   (iteration, path)
     ∈ (retrieve_all_checkpoints
          (Os.path_join train_dir
             [current_evo; CHECKPOINTS_DIR; CHECKPOINTS_FILE_PREFIX])
        ++ retrieve_all_checkpoints
          (Os.path_join train_dir
             [current_evo; RECOVERY_CHECKPOINTS_DIR; CHECKPOINTS_FILE_PREFIX]))%list)
  ∨ (evo ≠ current_evo ∧
     (∃ i, first_position evolutions current_evo i ∧ (0 < i)%nat ∧
           evolutions !! (i - 1)%nat = Some evo) ∧
     (iteration, path)
       ∈ retrieve_all_checkpoints
           (Os.path_join train_dir
              [evo; CHECKPOINTS_DIR; CHECKPOINTS_FILE_PREFIX])).
Proof.
  intros Hretr.
  apply retrieve_Ok_inv in Hretr as (i & Hpos & Hsnap).
  destruct (snapshot_from_current train_dir current_evo)
    as [[[evo' iteration'] path']|] eqn:Hcur.
  - rewrite snapshot_from_previous_keeps in Hsnap.
    injection Hsnap as -> -> ->.
    apply snapshot_from_current_inv in Hcur as (-> & _ & Hin). by left.
  - symmetry in Hsnap.
    apply snapshot_from_previous_inv in Hsnap as (Hprev & _ & Hlast).
    destruct (bool_decide (0 < i)%nat) eqn:Hi; [| done].
    apply bool_decide_eq_true in Hi.
    right. split_and!.
    + intros ->. destruct Hpos as [_ Hbefore].
      apply (Hbefore (i - 1)%nat); [lia | done].
    + by exists i.
    + by apply last_Some_elem_of.
Qed.

(** X3: a resolved snapshot never bears the empty stage name: the checkpoints of
    a stage named by the empty string are not looked at, neither for that
    stage nor as the seed of the stage after it. *)
Theorem seed_never_from_nameless_stage fs train_dir evolutions force_evo
    current_evo evo iteration path :
  _retrieve_current_evolution_and_last_snapshot
    fs train_dir evolutions force_evo
  = Ok (current_evo, Some (evo, iteration, path)) →
  evo ≠ EmptyString.
Proof.
  intros Hretr.
  apply retrieve_Ok_inv in Hretr as (i & Hpos & Hsnap).
  destruct (snapshot_from_current train_dir current_evo)
    as [[[evo' iteration'] path']|] eqn:Hcur.
  - rewrite snapshot_from_previous_keeps in Hsnap.
    injection Hsnap as -> -> ->.
    by apply snapshot_from_current_inv in Hcur as (-> & Hne & _).
  - symmetry in Hsnap.
    by apply snapshot_from_previous_inv in Hsnap as (_ & Hne & _).
Qed.

(** X4: when the resolved stage has a non-empty name and checkpoint discovery
    finds something in its checkpoint or recovery directory, the snapshot is
    a checkpoint of that stage with the highest iteration of the two
    directories together, whatever the previous stage holds. *)
Theorem seed_of_current_stage_is_highest fs train_dir evolutions force_evo
    current_evo snapshot :
  _retrieve_current_evolution_and_last_snapshot
    fs train_dir evolutions force_evo = Ok (current_evo, snapshot) →
  current_evo ≠ EmptyString →
  let found :=
    (retrieve_all_checkpoints
       (Os.path_join train_dir
          [current_evo; CHECKPOINTS_DIR; CHECKPOINTS_FILE_PREFIX])
     ++ retrieve_all_checkpoints
       (Os.path_join train_dir
          [current_evo; RECOVERY_CHECKPOINTS_DIR; CHECKPOINTS_FILE_PREFIX]))%list in
  found ≠ [] →
  ∃ iteration path,
    snapshot = Some (current_evo, iteration, path) ∧
    (iteration, path) ∈ found ∧
    ∀ iteration' path', (iteration', path') ∈ found → iteration' ≤ iteration.
Proof.
  intros Hretr Hname found Hfound.
  apply retrieve_Ok_inv in Hretr as (i & Hpos & ->).
  destruct (snapshot_from_current_highest train_dir current_evo Hname Hfound)
    as (iteration & path & -> & Hin & Hmax).
  exists iteration, path. by rewrite snapshot_from_previous_keeps.
Qed.

Lemma Sorted_last_max (l : list (Z * string)) x :
  Sorted (λ a b : Z * string, a.1 ≤ b.1) l → last l = Some x →
  ∀ y, y ∈ l → y.1 ≤ x.1.
Proof.
  intros Hsorted Hlast y Hy.
  apply Sorted_StronglySorted in Hsorted.
  - assert (Reflexive (λ a b : Z * string, a.1 ≤ b.1)) as Hrefl.
    { intros a. apply Z.le_refl. }
    by apply (StronglySorted_last _ _ _ Hsorted Hlast y).
  - intros a b c Hab Hbc. by etrans.
Qed.

(** X5: when discovery finds nothing for the resolved stage and returns the
    checkpoints of the stage before it (of non-empty name) in ascending
    order of iteration, the snapshot is a checkpoint of that previous stage
    with its highest iteration. *)
Theorem seed_of_previous_stage_when_ascending fs train_dir evolutions
    force_evo current_evo snapshot i previous_evo :
  _retrieve_current_evolution_and_last_snapshot
    fs train_dir evolutions force_evo = Ok (current_evo, snapshot) →
  retrieve_all_checkpoints
    (Os.path_join train_dir
       [current_evo; CHECKPOINTS_DIR; CHECKPOINTS_FILE_PREFIX]) = [] →
  retrieve_all_checkpoints
    (Os.path_join train_dir
       [current_evo; RECOVERY_CHECKPOINTS_DIR; CHECKPOINTS_FILE_PREFIX]) = [] →
  first_position evolutions current_evo i → (0 < i)%nat →
  evolutions !! (i - 1)%nat = Some previous_evo →
  previous_evo ≠ EmptyString →
  let found :=
    retrieve_all_checkpoints
      (Os.path_join train_dir
         [previous_evo; CHECKPOINTS_DIR; CHECKPOINTS_FILE_PREFIX]) in
  found ≠ [] →
  Sorted (λ a b : Z * string, a.1 ≤ b.1) found →
  ∃ iteration path,
    snapshot = Some (previous_evo, iteration, path) ∧
    (iteration, path) ∈ found ∧
    ∀ iteration' path', (iteration', path') ∈ found → iteration' ≤ iteration.
Proof.
  intros Hretr H1 H2 Hpos Hi Hprev Hname found Hfound Hsorted.
  apply retrieve_Ok_inv in Hretr as (i' & Hpos' & ->).
  assert (i' = i) as -> by (by eapply first_position_unique).
  rewrite bool_decide_eq_true_2 by done. rewrite Hprev.
  rewrite (snapshot_from_current_empty _ _ H1 H2).
  rewrite snapshot_from_previous_last by done. fold found.
  destruct (last found) as [[iteration path]|] eqn:Hlast.
  - exists iteration, path. split_and!.
    + by apply last_as_Some.
    + by apply last_Some_elem_of.
    + intros iteration' path' Hin.
      apply (Sorted_last_max found (iteration, path) Hsorted Hlast
               (iteration', path') Hin).
  - by apply last_None in Hlast.
Qed.

(** ** More on comparisons *)

Lemma first_position_same_name l x y i j :
  first_position l x i → first_position l y j → (i = j ↔ x = y).
Proof.
  intros Hx Hy. split.
  - intros ->. destruct Hx as [Hx _], Hy as [Hy _]. congruence.
  - intros ->. by eapply first_position_unique.
Qed.

Lemma eq_query_is_name_equality (self : EvolutionTrainer Session) other :
  _current_evolution self ∈ _evolutions self →
  other ∈ _evolutions self →
  current_evo_eq self other
  = Ok (bool_decide (_current_evolution self = other)).
Proof.
  intros Hcur Hother.
  destruct (evo_compare_positions (current_evo self) operator_eq other Hcur Hother)
    as (i & j & Hi & Hj & Heq).
  unfold current_evo_eq, __eq__. rewrite Heq. f_equal.
  unfold operator_eq. apply bool_decide_ext.
  by apply (first_position_same_name (_evolutions self)).
Qed.

(** X6: between names of the stage list the queries behave as one strict
    order with its equality: the equality query is equality of the names,
    not-equal is its negation, less-or-equal is the negation of greater,
    greater-or-equal the negation of less, and exactly one of less, equal
    and greater holds. *)
Theorem queries_form_one_order (self : EvolutionTrainer Session) other :
  _current_evolution self ∈ _evolutions self →
  other ∈ _evolutions self →
  ∃ lt gt : bool,
    current_evo_lt self other = Ok lt ∧
    current_evo_gt self other = Ok gt ∧
    current_evo_eq self other
    = Ok (bool_decide (name (current_evo self) = other)) ∧
    current_evo_ne self other
    = Ok (negb (bool_decide (name (current_evo self) = other))) ∧
    current_evo_le self other = Ok (negb gt) ∧
    current_evo_ge self other = Ok (negb lt) ∧
    lt && gt = false ∧
    lt || gt = negb (bool_decide (name (current_evo self) = other)).
Proof.
  intros Hcur Hother.
  destruct (index_elem _ _ Hcur) as (i & Hi & Hpi).
  destruct (index_elem _ _ Hother) as (j & Hj & Hpj).
  pose proof (first_position_same_name _ _ _ _ _ Hpi Hpj) as Hsame.
  exists (bool_decide (i < j)%nat), (bool_decide (j < i)%nat).
  apply contains_true in Hother.
  unfold current_evo_eq, current_evo_ne, current_evo_lt, current_evo_le,
    current_evo_gt, current_evo_ge, __eq__, __ne__, __lt__, __le__, __gt__,
    __ge__, evo_compare, current_evo, name; simpl.
  rewrite Hother; simpl. rewrite Hj; simpl. rewrite Hi; simpl.
  unfold operator_eq, operator_ne, operator_lt, operator_le, operator_gt,
    operator_ge.
  rewrite <- (bool_decide_ext _ _ Hsame).
  split_and!; try reflexivity; f_equal;
    repeat case_bool_decide; simpl; try reflexivity; lia.
Qed.

(** X7: two wrapped stages of one list compare conversely, and less-than is
    transitive along the list. *)
Theorem less_than_converse_and_transitive (all_evolutions : list string) a b c :
  a ∈ all_evolutions → b ∈ all_evolutions → c ∈ all_evolutions →
  __lt__ {| _evolution := a; _all_evolutions := all_evolutions |} b
  = __gt__ {| _evolution := b; _all_evolutions := all_evolutions |} a ∧
  (__lt__ {| _evolution := a; _all_evolutions := all_evolutions |} b = Ok true →
   __lt__ {| _evolution := b; _all_evolutions := all_evolutions |} c = Ok true →
   __lt__ {| _evolution := a; _all_evolutions := all_evolutions |} c = Ok true).
Proof.
  intros Ha Hb Hc.
  destruct (index_elem _ _ Ha) as (i & Hi & _).
  destruct (index_elem _ _ Hb) as (j & Hj & _).
  destruct (index_elem _ _ Hc) as (k & Hk & _).
  apply contains_true in Ha, Hb, Hc.
  unfold __lt__, __gt__, evo_compare; simpl.
  rewrite Ha, Hb, Hc; simpl. rewrite Hi, Hj, Hk; simpl.
  unfold operator_lt, operator_gt. split; [done |].
  intros [= Hab%bool_decide_eq_true] [= Hbc%bool_decide_eq_true].
  f_equal. apply bool_decide_eq_true. lia.
Qed.

(** X8: a comparison whose wrapped stage is itself not in the list, while
    the queried name is, raises the error of [list.index] for the wrapped
    stage; when the queried name is not in the list either, the
    unknown-stage error for the queried name comes first. *)
Theorem comparison_of_foreign_stage (self : _Evo) compare_op other :
  _evolution self ∉ _all_evolutions self →
  (other ∈ _all_evolutions self →
     evo_compare self compare_op other = Raise (NotInList (_evolution self))) ∧
  (other ∉ _all_evolutions self →
     evo_compare self compare_op other
     = Raise (ValueError ("Unknown evolution " +:+ Py.dq +:+ other +:+ Py.dq))).
Proof.
  intros Hevo. split.
  - intros Hother.
    destruct (index_elem _ _ Hother) as (j & Hj & _).
    apply contains_true in Hother.
    unfold evo_compare. rewrite Hother; simpl. rewrite Hj; simpl.
    unfold Py.index. by rewrite (find_index_not_elem _ _ Hevo).
  - apply evo_compare_unknown.
Qed.

(** X9: for queried names that are all in the stage list, the membership
    query answers true exactly when the equality query answers true for one
    of the queried names. *)
Theorem membership_is_some_equality (self : EvolutionTrainer Session) evos :
  _current_evolution self ∈ _evolutions self →
  (∀ evo, evo ∈ evos → evo ∈ _evolutions self) →
  (current_evo_in self evos = Ok true
   ↔ ∃ evo, evo ∈ evos ∧ current_evo_eq self evo = Ok true).
Proof.
  intros Hcur Hknown.
  unfold current_evo_in. rewrite (check_known_Ok _ _ Hknown). simpl.
  split.
  - intros [= Hin%contains_true].
    exists (_current_evolution self). split; [done |].
    rewrite eq_query_is_name_equality by done.
    by rewrite bool_decide_eq_true_2.
  - intros (evo & Hin & Heq).
    rewrite eq_query_is_name_equality in Heq by auto.
    injection Heq as Heq. apply bool_decide_eq_true in Heq as <-.
    f_equal. by apply contains_true.
Qed.

(** ** More on validation *)

Lemma check_unique_first_repeat evo_set evolutions j x :
  evolutions !! j = Some x →
  NoDup (take j evolutions) →
  (∀ y, y ∈ take j evolutions → y ∉ evo_set) →
  x ∈ evo_set ∨ x ∈ take j evolutions →
  check_unique evo_set evolutions
  = Raise (ValueError ("There are at least two evolutions named "
                         +:+ Py.dq +:+ x +:+ Py.dq +:+ "!")).
Proof.
  revert evo_set j.
  induction evolutions as [|evo rest IH]; intros evo_set j Hj Hnd Hfresh Hseen;
    [done |].
  destruct j as [|j]; simpl in *.
  - injection Hj as ->. destruct Hseen as [Hseen|Hseen].
    + by rewrite bool_decide_eq_true_2.
    + by apply not_elem_of_nil in Hseen.
  - apply NoDup_cons in Hnd as [Hevo Hnd].
    rewrite bool_decide_eq_false_2 by (apply Hfresh; by left). simpl.
    apply (IH _ j); [done | done | |].
    + intros y Hy. apply not_elem_of_union. split.
      * intros ->%elem_of_singleton. done.
      * apply Hfresh. by right.
    + destruct Hseen as [Hseen|[->|Hseen]%elem_of_cons].
      * left. set_solver.
      * left. set_solver.
      * by right.
Qed.

(** X10: a reserved name is reported before any repeated name, and it is
    the reserved name that comes first in the list that is reported. *)
Theorem reserved_name_reported_first evolutions j x :
  evolutions !! j = Some x → reserved x →
  (∀ k y, (k < j)%nat → evolutions !! k = Some y → ¬ reserved y) →
  _check_evolution_names evolutions
  = Raise (ValueError (Py.dq +:+ x +:+ Py.dq +:+ " is not a valid evo name!")).
Proof.
  intros Hj Hres Hbefore.
  unfold _check_evolution_names.
  assert (check_invalid evolutions
          = Raise (ValueError (Py.dq +:+ x +:+ Py.dq +:+ " is not a valid evo name!")))
    as ->; [| done].
  revert j Hj Hbefore.
  induction evolutions as [|evo rest IH]; intros j Hj Hbefore; [done |].
  simpl. destruct j as [|j]; simpl in Hj.
  - injection Hj as ->.
    by rewrite (proj2 (contains_true _ _) (proj2 (invalid_names_reserved x) Hres)).
  - assert (Py.contains invalid_names evo = false) as ->.
    { apply contains_false. rewrite invalid_names_reserved.
      by apply (Hbefore 0%nat); [lia |]. }
    apply (IH j); [done |].
    intros k y Hk Hy. apply (Hbefore (S k)); [lia | done].
Qed.

(** X11: without reserved names, the repeated name that is reported is the
    one whose second occurrence comes first in the list. *)
Theorem repeated_name_reported_first evolutions j x :
  (∀ y, y ∈ evolutions → ¬ reserved y) →
  evolutions !! j = Some x →
  x ∈ take j evolutions →
  NoDup (take j evolutions) →
  _check_evolution_names evolutions
  = Raise (ValueError ("There are at least two evolutions named "
                         +:+ Py.dq +:+ x +:+ Py.dq +:+ "!")).
Proof.
  intros Hres Hj Hseen Hnd.
  unfold _check_evolution_names.
  rewrite (check_invalid_Ok _ Hres). simpl.
  apply (check_unique_first_repeat ∅ evolutions j x); [done | done | | by right].
  intros y _. set_solver.
Qed.

(** ** More on construction *)

(** X12: what holds of every trainer that construction returns: it keeps the
    names and the given directory and session, the names are pairwise
    different, none is reserved, the current stage is one of them, the
    underlying trainer is scoped to the directory of the current stage, and
    a trainer without snapshot is at the first stage. *)
Theorem constructed_trainer_invariants fs (session0 : Session) train_dir arg
    force_evo self :
  __init__ fs session0 train_dir arg force_evo = Ok self →
  names_of arg = _evolutions self ∧
  NoDup (_evolutions self) ∧
  (∀ x, x ∈ _evolutions self → ¬ reserved x) ∧
  name (current_evo self) ∈ _evolutions self ∧
  _train_dir self = train_dir ∧
  session self = session0 ∧
  st_session (_simpletrainer self) = session0 ∧
  st_train_dir (_simpletrainer self)
  = Os.path_join train_dir [name (current_evo self)] ∧
  (init_snapshot self = None →
   _evolutions self !! 0%nat = Some (name (current_evo self))).
Proof.
  intros Hinit.
  destruct (init_Ok_inv _ _ _ _ _ _ Hinit)
    as (evolutions & Harg & Hcheck & Hne & Hforce).
  destruct (init_resolved fs session0 train_dir arg evolutions force_evo
              Harg Hcheck Hne Hforce)
    as (cur & i & snap & Hpos & Hretr & Heq).
  rewrite Hinit in Heq.
  destruct (bool_decide (0 < i)%nat && bool_decide (snap = None)) eqn:Hguard;
    [done |].
  injection Heq as ->. unfold name, init_snapshot, session; simpl.
  apply check_names_Ok_inv in Hcheck as [Hnd Hres].
  split_and!; try done.
  - by destruct Harg as [->| ->].
  - destruct Hpos as [Hi _]. by eapply list_elem_of_lookup_2.
  - intros ->.
    rewrite (bool_decide_eq_true_2 (@None Snapshot = None)) in Hguard by done.
    rewrite andb_true_r in Hguard. apply bool_decide_eq_false in Hguard.
    apply (first_position_zero _ _ _ Hpos). lia.
Qed.

(** An argument that is neither a list nor a tuple never gives a
    trainer: the error of the name check comes first, and when the names
    pass, the invalid-argument error is raised, before the list is looked
    at for emptiness or for the override. *)
Theorem non_sequence_argument_rejected fs (session0 : Session) train_dir
    names force_evo :
  ∃ e, __init__ fs session0 train_dir (PyOther names) force_evo = Raise e ∧
    (_check_evolution_names names = Ok () →
       e = ValueError ("invalid argument for " +:+ Py.dq +:+ "evolutions" +:+ Py.dq)) ∧
    (∀ e', _check_evolution_names names = Raise e' → e = e').
Proof.
  unfold __init__. simpl.
  destruct (_check_evolution_names names) as [[]|e'] eqn:Hcheck; simpl.
  - eexists. split; [done |]. split; [done |]. intros e' [=].
  - exists e'. split; [done |]. split; [done |]. by intros ? [= ->].
Qed.

(** X13: the underlying trainer's directory is the stage name itself when
    the name starts with the separator, whatever the training directory is;
    otherwise it is the training directory followed by the name, with a
    separator between them unless the training directory is empty or ends
    with one. *)
Theorem stage_directory_location fs (session0 : Session) train_dir arg
    force_evo self :
  __init__ fs session0 train_dir arg force_evo = Ok self →
  (Os.startswith_sep (_current_evolution self) = true →
     st_train_dir (_simpletrainer self) = _current_evolution self) ∧
  (Os.startswith_sep (_current_evolution self) = false →
     st_train_dir (_simpletrainer self)
     = if negb (Py.truthy train_dir) || Os.endswith_sep train_dir
       then train_dir +:+ _current_evolution self
       else train_dir +:+ String Os.sep (_current_evolution self)).
Proof.
  intros Hinit.
  apply init_invariants in Hinit as (_ & _ & _ & _ & _ & Hdir & Hst & _).
  rewrite Hst, Hdir. unfold Os.path_join. simpl. unfold Os.join_step.
  split; intros ->; done.
Qed.

(** ** More on the main loop *)

(** X14: when the two status codes differ, the finished code comes back
    from the main loop only at the last stage of the list, and then it is
    the code the underlying loop returned, on the tree that loop left. *)
Theorem finished_only_at_last_stage fs0 (session0 : Session) train_dir arg
    force_evo self fs fs'' :
  __init__ fs0 session0 train_dir arg force_evo = Ok self →
  STATUS_TRAINING_FINISHED ≠ STATUS_TRAINING_UNFINISHED →
  mainloop self fs = Ok (STATUS_TRAINING_FINISHED, fs'') →
  last (_evolutions self) = Some (_current_evolution self) ∧
  SimpleTrainer_mainloop (_simpletrainer self) fs
  = (STATUS_TRAINING_FINISHED, fs'').
Proof.
  intros Hinit Hdiff Hloop.
  apply init_invariants in Hinit
    as (_ & _ & _ & _ & _ & _ & _ & i & Hpos & _).
  unfold mainloop in Hloop.
  destruct (SimpleTrainer_mainloop (_simpletrainer self) fs) as [status fs'].
  rewrite (first_position_index _ _ _ Hpos) in Hloop. simpl in Hloop.
  destruct Hpos as [Hi _].
  assert (i < length (_evolutions self))%nat as Hlen by (by eapply lookup_lt_Some).
  destruct (bool_decide (status = STATUS_TRAINING_FINISHED)) eqn:Hfin.
  - apply bool_decide_eq_true in Hfin as ->.
    destruct (bool_decide (i + 1 < length (_evolutions self))%nat) eqn:Hnext.
    + apply bool_decide_eq_true in Hnext.
      destruct (lookup_lt_is_Some_2 (_evolutions self) (i + 1)%nat Hnext)
        as [next Hlook].
      unfold Py.item in Hloop. rewrite Hlook in Hloop. simpl in Hloop.
      injection Hloop as Heq _. by destruct Hdiff.
    + apply bool_decide_eq_false in Hnext. injection Hloop as <-.
      split; [| done]. rewrite last_lookup.
      by replace (pred (length (_evolutions self))) with i by lia.
  - apply bool_decide_eq_false in Hfin.
    destruct (bool_decide (status = STATUS_TRAINING_NAN_LOSS));
      injection Hloop as -> _; done.
Qed.

Lemma mainloop_cases (self : EvolutionTrainer Session) fs status fs' i :
  SimpleTrainer_mainloop (_simpletrainer self) fs = (status, fs') →
  first_position (_evolutions self) (_current_evolution self) i →
  mainloop self fs
  = match _evolutions self !! (i + 1)%nat with
    | Some next_evolution =>
        if bool_decide (status = STATUS_TRAINING_FINISHED)
        then Ok (STATUS_TRAINING_UNFINISHED,
                 Os.makedirs fs' (Os.path_join (_train_dir self) [next_evolution]))
        else Ok (status, fs')
    | None => Ok (status, fs')
    end.
Proof.
  intros Hloop Hpos. unfold mainloop. rewrite Hloop.
  rewrite (first_position_index _ _ _ Hpos). simpl.
  destruct (_evolutions self !! (i + 1)%nat) as [next|] eqn:Hnext.
  - rewrite (bool_decide_eq_true_2 (i + 1 < _)%nat)
      by (by eapply lookup_lt_Some).
    unfold Py.item. rewrite Hnext. simpl.
    destruct (bool_decide (status = STATUS_TRAINING_FINISHED)); [done |].
    by destruct (bool_decide (status = STATUS_TRAINING_NAN_LOSS)).
  - apply lookup_ge_None in Hnext.
    rewrite (bool_decide_eq_false_2 (i + 1 < _)%nat) by lia.
    destruct (bool_decide (status = STATUS_TRAINING_FINISHED)); [done |].
    by destruct (bool_decide (status = STATUS_TRAINING_NAN_LOSS)).
Qed.

(** X15: the main loop removes no directory from the tree the underlying
    loop leaves, and every directory it adds is the directory of the stage
    after the current one or one of the directories leading to it. *)
Theorem mainloop_only_adds_next_stage fs0 (session0 : Session) train_dir arg
    force_evo self fs status fs' status'' fs'' :
  __init__ fs0 session0 train_dir arg force_evo = Ok self →
  SimpleTrainer_mainloop (_simpletrainer self) fs = (status, fs') →
  mainloop self fs = Ok (status'', fs'') →
  fs' ⊆ fs'' ∧
  ∀ path, path ∈ fs'' → path ∉ fs' →
    ∃ i next_evolution,
      first_position (_evolutions self) (_current_evolution self) i ∧
      _evolutions self !! (i + 1)%nat = Some next_evolution ∧
      (path = Os.path_join train_dir [next_evolution] ∨
       path ∈ Os.parents EmptyString (Os.path_join train_dir [next_evolution])).
Proof.
  intros Hinit Hinner Hloop.
  apply init_invariants in Hinit
    as (_ & _ & Hdir & _ & _ & _ & _ & i & Hpos & _).
  rewrite (mainloop_cases self fs status fs' i Hinner Hpos) in Hloop.
  destruct (_evolutions self !! (i + 1)%nat) as [next|] eqn:Hnext.
  - destruct (bool_decide (status = STATUS_TRAINING_FINISHED)).
    + injection Hloop as _ <-. rewrite Hdir. unfold Os.makedirs.
      split; [set_solver |].
      intros path Hin Hnot. exists i, next. split_and!; [done | done |].
      apply elem_of_union in Hin as [[Hin|Hin]%elem_of_union|Hin].
      * done.
      * left. by apply elem_of_singleton in Hin.
      * right. by apply elem_of_list_to_set in Hin.
    + injection Hloop as _ <-. split; [done |]. intros path Hin Hnot. done.
  - injection Hloop as _ <-. split; [done |]. intros path Hin Hnot. done.
Qed.

(** X16: after the main loop has come back from a finished stage that has a
    successor, resolving again on the tree it leaves, without an override,
    yields a stage that comes later in the list than the finished one; it is
    the successor itself when no later stage has a directory. *)
Theorem restart_proceeds_to_later_stage fs0 (session0 : Session) train_dir arg
    force_evo self fs fs' status'' fs'' i next_evolution :
  __init__ fs0 session0 train_dir arg force_evo = Ok self →
  SimpleTrainer_mainloop (_simpletrainer self) fs
  = (STATUS_TRAINING_FINISHED, fs') →
  first_position (_evolutions self) (_current_evolution self) i →
  _evolutions self !! (i + 1)%nat = Some next_evolution →
  mainloop self fs = Ok (status'', fs'') →
  ∃ current_evo snapshot k,
    _retrieve_current_evolution_and_last_snapshot
      fs'' train_dir (_evolutions self) None = Ok (current_evo, snapshot) ∧
    _evolutions self !! k = Some current_evo ∧ (i < k)%nat ∧
    ((∀ j evo, (i + 1 < j)%nat → _evolutions self !! j = Some evo →
               Os.path_isdir fs'' (Os.path_join train_dir [evo]) = false) →
     current_evo = next_evolution).
Proof.
  intros Hinit Hinner Hpos Hnext Hloop.
  apply init_invariants in Hinit as (_ & _ & Hdir & _).
  rewrite (mainloop_cases self fs _ fs' i Hinner Hpos) in Hloop.
  rewrite Hnext, bool_decide_eq_true_2 in Hloop by done.
  injection Hloop as _ <-. rewrite Hdir.
  set (fs'' := Os.makedirs fs' (Os.path_join train_dir [next_evolution])).
  assert (_evolutions self ≠ []) as Hne.
  { intros Hnil. by rewrite Hnil in Hnext. }
  destruct (retrieve_Ok fs'' train_dir (_evolutions self) None Hne)
    as (current_evo & p & Hposcur & Hwhich & Heq); [done |].
  pose proof (reverse_scan
    (λ evo, Os.path_isdir fs'' (Os.path_join train_dir [evo]) = true)
    (_evolutions self)) as Hscan.
  destruct (snd <$> list_find _ (reverse (_evolutions self))) as [evo|].
  - subst evo. destruct Hscan as (k & Hk & Hisdir & Hafter).
    assert (i + 1 ≤ k)%nat as Hik.
    { destruct (decide (i + 1 ≤ k)%nat) as [|Hlt]; [done |].
      exfalso. apply (Hafter (i + 1)%nat next_evolution); [lia | done |].
      apply makedirs_isdir. }
    eexists current_evo, _, k. split_and!; [exact Heq | done | lia |].
    intros Hnone.
    destruct (decide (k = i + 1)%nat) as [->|Hne'].
    + congruence.
    + exfalso.
      assert (i + 1 < k)%nat as Hlt by lia.
      exact (eq_true_false_abs _ Hisdir (Hnone k current_evo Hlt Hk)).
  - exfalso. apply (Hscan next_evolution).
    + by eapply list_elem_of_lookup_2.
    + apply makedirs_isdir.
Qed.

(** X17: what [load_checkpoint] without a path does for a trainer that
    construction returned: at the first stage without snapshot it restores
    nothing; with a checkpoint of the current stage it restores it with no
    variable left out; otherwise it restores a checkpoint of the stage just
    before the current one and leaves the global step out. *)
Theorem construct_then_load fs (session0 : Session) train_dir arg force_evo
    self (verbose remove_nonfinite_checkpoints : bool) :
  __init__ fs session0 train_dir arg force_evo = Ok self →
  (init_snapshot self = None ∧
   _evolutions self !! 0%nat = Some (_current_evolution self) ∧
   load_checkpoint self None verbose remove_nonfinite_checkpoints
   = [Stdout ["nothing to restore. no checkpoint found."%string]])
  ∨ (∃ iteration path,
       init_snapshot self = Some (_current_evolution self, iteration, path) ∧
       (iteration, path)
         ∈ (retrieve_all_checkpoints
              (Os.path_join train_dir
                 [_current_evolution self; CHECKPOINTS_DIR;
                  CHECKPOINTS_FILE_PREFIX])
            ++ retrieve_all_checkpoints
              (Os.path_join train_dir
                 [_current_evolution self; RECOVERY_CHECKPOINTS_DIR;
                  CHECKPOINTS_FILE_PREFIX]))%list ∧
       load_checkpoint self None verbose remove_nonfinite_checkpoints
       = [Stdout ["loading"%string; path];
          OptimisticRestore path (Passed None) verbose
            (Passed remove_nonfinite_checkpoints)])
  ∨ (∃ previous_evo iteration path i,
       init_snapshot self = Some (previous_evo, iteration, path) ∧
       first_position (_evolutions self) (_current_evolution self) i ∧
       (0 < i)%nat ∧
       _evolutions self !! (i - 1)%nat = Some previous_evo ∧
       (iteration, path)
         ∈ retrieve_all_checkpoints
             (Os.path_join train_dir
                [previous_evo; CHECKPOINTS_DIR; CHECKPOINTS_FILE_PREFIX]) ∧
       load_checkpoint self None verbose remove_nonfinite_checkpoints
       = [Stdout ["loading"%string; path];
          OptimisticRestore path (Passed (Some ["global_step"%string])) verbose
            (Passed remove_nonfinite_checkpoints)]).
Proof.
  intros Hinit.
  apply init_invariants in Hinit
    as (_ & _ & _ & _ & Hretr & _ & _ & i & Hpos & Hseed).
  unfold init_snapshot, load_checkpoint. simpl.
  destruct (_init_snapshot self) as [[[evo iteration] path]|] eqn:Hsnap.
  - apply retrieve_Ok_inv in Hretr as (i' & Hpos' & Hfrom).
    assert (i' = i) as -> by (by eapply first_position_unique).
    destruct (snapshot_from_current train_dir (_current_evolution self))
      as [[[evo' iteration'] path']|] eqn:Hcur.
    + rewrite snapshot_from_previous_keeps in Hfrom.
      injection Hfrom as <- <- <-.
      apply snapshot_from_current_inv in Hcur as (-> & _ & Hin).
      right. left. exists iteration, path. split_and!; [done | done |].
      by rewrite bool_decide_eq_true_2.
    + symmetry in Hfrom.
      apply snapshot_from_previous_inv in Hfrom as (Hprev & _ & Hlast).
      destruct (bool_decide (0 < i)%nat) eqn:Hi; [| done].
      apply bool_decide_eq_true in Hi.
      right. right. exists evo, iteration, path, i.
      split_and!; [done | done | done | done | by apply last_Some_elem_of |].
      rewrite bool_decide_eq_false_2; [done |].
      intros Heq. destruct Hpos as [_ Hbefore].
      apply (Hbefore (i - 1)%nat); [lia | by rewrite Heq].
  - left. split_and!; [done | | done].
    apply (first_position_zero _ _ _ Hpos).
    destruct i; [done |]. exfalso. apply Hseed; [lia | done].
Qed.

(** X18: a stage whose directory exists, with no directory for any later
    stage and no checkpoint of its own, is constructed on the last
    checkpoint listed for the stage before it, and [load_checkpoint] then
    restores that checkpoint without the global step. *)
Theorem next_stage_starts_from_previous fs (session0 : Session) train_dir
    evolutions i previous_evo next_evolution iteration path
    (verbose remove_nonfinite_checkpoints : bool) :
  _check_evolution_names evolutions = Ok () →
  evolutions !! i = Some previous_evo →
  evolutions !! (i + 1)%nat = Some next_evolution →
  Os.path_isdir fs (Os.path_join train_dir [next_evolution]) = true →
  (∀ j evo, (i + 1 < j)%nat → evolutions !! j = Some evo →
            Os.path_isdir fs (Os.path_join train_dir [evo]) = false) →
  retrieve_all_checkpoints
    (Os.path_join train_dir
       [next_evolution; CHECKPOINTS_DIR; CHECKPOINTS_FILE_PREFIX]) = [] →
  retrieve_all_checkpoints
    (Os.path_join train_dir
       [next_evolution; RECOVERY_CHECKPOINTS_DIR; CHECKPOINTS_FILE_PREFIX]) = [] →
  previous_evo ≠ EmptyString →
  last (retrieve_all_checkpoints
          (Os.path_join train_dir
             [previous_evo; CHECKPOINTS_DIR; CHECKPOINTS_FILE_PREFIX]))
  = Some (iteration, path) →
  ∃ self,
    __init__ fs session0 train_dir (PyList evolutions) None = Ok self ∧
    _current_evolution self = next_evolution ∧
    init_snapshot self = Some (previous_evo, iteration, path) ∧
    load_checkpoint self None verbose remove_nonfinite_checkpoints
    = [Stdout ["loading"%string; path];
       OptimisticRestore path (Passed (Some ["global_step"%string])) verbose
         (Passed remove_nonfinite_checkpoints)].
Proof.
  intros Hcheck Hprev Hnext Hisdir Hlater H1 H2 Hname Hlast.
  pose proof (check_names_Ok_inv _ Hcheck) as [Hnd _].
  assert (evolutions ≠ []) as Hne by (intros ->; done).
  destruct (init_resolved fs session0 train_dir (PyList evolutions) evolutions
              None (or_introl eq_refl) Hcheck Hne)
    as (cur & k & snap & Hpos & Hretr & Heq); [done |].
  (* the resolved stage is the successor *)
  destruct (retrieve_Ok fs train_dir evolutions None Hne)
    as (cur' & k' & Hpos' & Hwhich & Hretr'); [done |].
  rewrite Hretr in Hretr'. injection Hretr' as <- Hsnap.
  assert (k' = k) as -> by (by eapply first_position_unique).
  pose proof (reverse_scan
    (λ evo, Os.path_isdir fs (Os.path_join train_dir [evo]) = true)
    evolutions) as Hscan.
  assert (cur = next_evolution) as ->.
  { destruct (snd <$> list_find _ (reverse evolutions)) as [evo|].
    - subst evo. destruct Hscan as (p & Hp & Hdirp & Hafter).
      destruct (Nat.lt_trichotomy p (i + 1)) as [Hlt|[->|Hgt]].
      + exfalso. by apply (Hafter (i + 1)%nat next_evolution).
      + congruence.
      + exfalso.
        exact (eq_true_false_abs _ Hdirp (Hlater p cur Hgt Hp)).
    - exfalso. apply (Hscan next_evolution); [| done].
      by eapply list_elem_of_lookup_2. }
  assert (k = i + 1)%nat as -> by (by eapply first_position_NoDup).
  assert (snap = Some (previous_evo, iteration, path)) as ->.
  { rewrite Hsnap, bool_decide_eq_true_2 by lia.
    replace (i + 1 - 1)%nat with i by lia. rewrite Hprev.
    rewrite (snapshot_from_current_empty _ _ H1 H2).
    rewrite snapshot_from_previous_last by done. by apply last_as_Some. }
  rewrite andb_false_r in Heq.
  eexists. split; [exact Heq |]. unfold init_snapshot, load_checkpoint. simpl.
  split_and!; [done | done |].
  rewrite bool_decide_eq_false_2; [done |].
  intros <-. pose proof (NoDup_lookup _ _ _ _ Hnd Hprev Hnext). lia.
Qed.

End Properties.

(** ** What resolution reads of the checkpoint listings *)

(** X19: resolution looks at three listings only: the checkpoint and the
    recovery listing of the resolved stage and the checkpoint listing of the
    stage before it.  Two checkpoint discoveries that agree on these three
    give the same result, whatever they list elsewhere, for instance in the
    recovery directory of the previous stage. *)
Theorem resolution_reads_three_listings {TB : TrainerBase} (HP1 HP2 : Helpers)
    fs train_dir evolutions force_evo current_evo snapshot :
  _retrieve_current_evolution_and_last_snapshot (HP := HP1)
    fs train_dir evolutions force_evo = Ok (current_evo, snapshot) →
  (let prefix :=
     Os.path_join train_dir
       [current_evo; CHECKPOINTS_DIR; CHECKPOINTS_FILE_PREFIX] in
   retrieve_all_checkpoints (Helpers := HP1) prefix
   = retrieve_all_checkpoints (Helpers := HP2) prefix) →
  (let prefix :=
     Os.path_join train_dir
       [current_evo; RECOVERY_CHECKPOINTS_DIR; CHECKPOINTS_FILE_PREFIX] in
   retrieve_all_checkpoints (Helpers := HP1) prefix
   = retrieve_all_checkpoints (Helpers := HP2) prefix) →
  (∀ i previous_evo,
     first_position evolutions current_evo i → (0 < i)%nat →
     evolutions !! (i - 1)%nat = Some previous_evo →
     let prefix :=
       Os.path_join train_dir
         [previous_evo; CHECKPOINTS_DIR; CHECKPOINTS_FILE_PREFIX] in
     retrieve_all_checkpoints (Helpers := HP1) prefix
     = retrieve_all_checkpoints (Helpers := HP2) prefix) →
  _retrieve_current_evolution_and_last_snapshot (HP := HP2)
    fs train_dir evolutions force_evo = Ok (current_evo, snapshot).
Proof.
  intros Hretr Hnormal Hrecovery Hprevious.
  assert (evolutions ≠ [] ∧ ∀ evo, force_evo = Some evo → evo ∈ evolutions)
    as [Hne Hforce].
  { destruct force_evo as [evo|].
    - destruct (decide (evo ∈ evolutions)) as [Hin|Hnot].
      + split; [| by intros ? [= <-]].
        intros ->. by apply not_elem_of_nil in Hin.
      + by rewrite retrieve_override_unknown in Hretr.
    - split; [| done]. intros ->. by rewrite retrieve_empty_list in Hretr. }
  destruct (retrieve_Ok (HP := HP1) fs train_dir evolutions force_evo Hne Hforce)
    as (cur1 & i1 & Hpos1 & Hwhich1 & Heq1).
  destruct (retrieve_Ok (HP := HP2) fs train_dir evolutions force_evo Hne Hforce)
    as (cur2 & i2 & Hpos2 & Hwhich2 & Heq2).
  rewrite Hretr in Heq1. injection Heq1 as <- ->.
  assert (cur2 = current_evo) as ->.
  { destruct force_evo as [evo|]; [congruence |].
    destruct (snd <$> list_find _ (reverse evolutions)); congruence. }
  assert (i2 = i1) as -> by (by eapply first_position_unique).
  rewrite Heq2. do 2 f_equal.
  assert (snapshot_from_current (HP := HP2) train_dir current_evo
          = snapshot_from_current (HP := HP1) train_dir current_evo) as ->.
  { unfold snapshot_from_current. cbv zeta in *.
    by rewrite Hnormal, Hrecovery. }
  destruct (bool_decide (0 < i1)%nat) eqn:Hi; [| done].
  apply bool_decide_eq_true in Hi.
  destruct (evolutions !! (i1 - 1)%nat) as [previous_evo|] eqn:Hprev; [| done].
  unfold snapshot_from_previous.
  destruct (snapshot_from_current train_dir current_evo); [done |].
  destruct (Py.truthy previous_evo); [| done].
  cbv zeta. by rewrite (Hprevious i1 previous_evo Hpos1 Hi Hprev).
Qed.

(** * The properties at concrete inputs *)

(** Stage "b" of ["a"; "b"; "c"] compared with its neighbours and itself. *)
Example compare_abc :
  current_evo_lt (Demo.trainer "b" None) "c" = Ok true ∧
  current_evo_gt (Demo.trainer "b" None) "a" = Ok true ∧
  current_evo_eq (Demo.trainer "b" None) "b" = Ok true ∧
  current_evo_lt (Demo.trainer "b" None) "z"
  = Raise (ValueError ("Unknown evolution " +:+ Py.dq +:+ "z" +:+ Py.dq)).
Proof. vm_compute. done. Qed.

Lemma relational_queries_compare_positions_witness :
  ∃ i j : nat,
    first_position Demo.abc "b" i ∧
    first_position Demo.abc "c" j ∧
    current_evo_eq (Demo.trainer "b" None) "c" = Ok (bool_decide (i = j)) ∧
    current_evo_ne (Demo.trainer "b" None) "c" = Ok (negb (bool_decide (i = j))) ∧
    current_evo_lt (Demo.trainer "b" None) "c" = Ok (bool_decide (i < j)%nat) ∧
    current_evo_le (Demo.trainer "b" None) "c" = Ok (bool_decide (i ≤ j)%nat) ∧
    current_evo_gt (Demo.trainer "b" None) "c" = Ok (bool_decide (j < i)%nat) ∧
    current_evo_ge (Demo.trainer "b" None) "c" = Ok (bool_decide (j ≤ i)%nat).
Proof.
  apply (relational_queries_compare_positions (Demo.trainer "b" None) "c");
    apply (bool_decide_unpack _); vm_compute; exact I.
Defined.

(** The order is that of the list, not that of the spelling. *)
Example compare_not_lexical :
  __lt__ {| _evolution := "b"; _all_evolutions := ["b"; "a"] |} "a" = Ok true.
Proof. vm_compute. done. Qed.

Lemma unknown_stage_errors_witness :
  current_evo_ge (Demo.trainer "b" None) "z"
  = Raise (ValueError ("Unknown evolution " +:+ Py.dq +:+ "z" +:+ Py.dq)) ∧
  (∃ evo, evo ∈ ["b"; "z"] ∧ (evo ∉ Demo.abc) ∧
     current_evo_in (Demo.trainer "b" None) ["b"; "z"]
     = Raise (ValueError ("Unknown evolution " +:+ Py.dq +:+ evo +:+ Py.dq))) ∧
  current_evo_in (Demo.trainer "b" None) ["a"; "b"]
  = Ok (bool_decide ("b" ∈ ["a"; "b"])).
Proof.
  destruct (unknown_stage_errors (Demo.trainer "b" None)) as (H1 & H2 & H3).
  split_and!.
  - apply (H1 "z"). apply (bool_decide_unpack _). vm_compute. exact I.
  - apply (H2 ["b"; "z"]). exists "z".
    split; apply (bool_decide_unpack _); vm_compute; exact I.
  - apply (H3 ["a"; "b"]). intros evo Hevo.
    repeat (apply elem_of_cons in Hevo as [->|Hevo]);
      [apply (bool_decide_unpack _); vm_compute; exact I .. |].
    by apply not_elem_of_nil in Hevo.
Defined.

(** The membership query with an unknown name beside the current stage. *)
Example membership_unknown_beside_current :
  current_evo_in (Demo.trainer "b" None) ["b"; "z"]
  = Raise (ValueError ("Unknown evolution " +:+ Py.dq +:+ "z" +:+ Py.dq)).
Proof. vm_compute. done. Qed.

Lemma load_checkpoint_cases_witness :
  load_checkpoint (Demo.trainer "b" (Some ("a", 20, "a-20"))) None true true
  = [Stdout ["loading"; "a-20"];
     OptimisticRestore "a-20" (Passed (Some ["global_step"])) true (Passed true)] ∧
  load_checkpoint (Demo.trainer "b" (Some ("b", 30, "b-30"))) None true true
  = [Stdout ["loading"; "b-30"];
     OptimisticRestore "b-30" (Passed None) true (Passed true)] ∧
  load_checkpoint (Demo.trainer "a" None) None true true
  = [Stdout ["nothing to restore. no checkpoint found."]] ∧
  load_checkpoint (Demo.trainer "b" (Some ("b", 30, "b-30"))) (Some "other") true true
  = [Stdout ["loading"; "other"];
     OptimisticRestore "other" NotPassed true NotPassed].
Proof.
  split_and!.
  - apply (proj1 (load_checkpoint_cases
                    (Demo.trainer "b" (Some ("a", 20, "a-20"))) true true)
             "a" 20 "a-20"); [reflexivity | discriminate].
  - apply (proj1 (proj2 (load_checkpoint_cases
                    (Demo.trainer "b" (Some ("b", 30, "b-30"))) true true))
             "b" 30 "b-30"); reflexivity.
  - apply (proj1 (proj2 (proj2 (load_checkpoint_cases
                    (Demo.trainer "a" None) true true)))); reflexivity.
  - apply (proj2 (proj2 (proj2 (load_checkpoint_cases
                    (Demo.trainer "b" (Some ("b", 30, "b-30"))) true true)))
             "other"); discriminate.
Defined.

(** C5 as stated fails at the empty path: the call does not restore from
    the file of that name but falls back to the resolved snapshot, and the
    removal flag is passed on. *)
Lemma load_checkpoint_empty_path_falls_back :
  let self := Demo.trainer "b" (Some ("a", 20, "a-20")) in
  load_checkpoint self (Some EmptyString) true true
  ≠ [Stdout ["loading"; EmptyString];
     OptimisticRestore EmptyString NotPassed true NotPassed] ∧
  load_checkpoint self (Some EmptyString) true true
  = [Stdout ["loading"; "a-20"];
     OptimisticRestore "a-20" (Passed (Some ["global_step"])) true (Passed true)] ∧
  load_checkpoint self (Some EmptyString) true true
  ≠ load_checkpoint self (Some EmptyString) true false.
Proof. vm_compute. split_and!; [discriminate | reflexivity | discriminate]. Qed.

Lemma resolution_selects_last_existing_witness :
  ∃ current_evo snapshot,
    _retrieve_current_evolution_and_last_snapshot
      (TB := Demo.tb) (HP := Demo.listing ∅)
      {[ "base/a"; "base/c" ]} "base" Demo.abc None
    = Ok (current_evo, snapshot) ∧
    ((∃ i, Demo.abc !! i = Some current_evo ∧
           Os.path_isdir {[ "base/a"; "base/c" ]}
             (Os.path_join "base" [current_evo]) = true ∧
           ∀ j evo, (i < j)%nat → Demo.abc !! j = Some evo →
                    Os.path_isdir {[ "base/a"; "base/c" ]}
                      (Os.path_join "base" [evo]) = false)
     ∨ ((∀ evo, evo ∈ Demo.abc →
                Os.path_isdir {[ "base/a"; "base/c" ]}
                  (Os.path_join "base" [evo]) = false) ∧
        Demo.abc !! 0%nat = Some current_evo)).
Proof.
  apply (resolution_selects_last_existing
           (TB := Demo.tb) (HP := Demo.listing ∅)
           {[ "base/a"; "base/c" ]} "base" Demo.abc).
  discriminate.
Defined.

(** Directories for stages 0 and 2 only: the current stage is stage 2.
    No directory at all: the first stage, and no snapshot. *)
Example resolve_with_gap :
  _retrieve_current_evolution_and_last_snapshot
    (TB := Demo.tb) (HP := Demo.listing ∅)
    {[ "base/a"; "base/c" ]} "base" Demo.abc None = Ok ("c", None) ∧
  _retrieve_current_evolution_and_last_snapshot
    (TB := Demo.tb) (HP := Demo.listing ∅) ∅ "base" Demo.abc None
  = Ok ("a", None).
Proof. vm_compute. done. Qed.

(** C3: with the checkpoints 20 and 10 of the previous stage "a" listed in
    this order by checkpoint discovery, the seed of the new stage "b" is
    checkpoint 10, the last one listed, and not the highest iteration. *)
Theorem previous_stage_seed_is_last_listed :
  _retrieve_current_evolution_and_last_snapshot
    (TB := Demo.tb) (HP := Demo.listing Demo.disk_a)
    {[ "base/a"; "base/b" ]} "base" ["a"; "b"] None
  = Ok ("b", Some ("a", 10, "base/a/checkpoints/snapshot-10")) ∧
  (20, "base/a/checkpoints/snapshot-20"%string)
    ∈ retrieve_all_checkpoints (Helpers := Demo.listing Demo.disk_a)
        "base/a/checkpoints/snapshot".
Proof.
  split; [vm_compute; reflexivity |].
  apply (bool_decide_unpack _). vm_compute. exact I.
Qed.

(** Snapshot selection on the layouts of [Demo]: the highest iteration of
    the current stage; the recovery checkpoint of the current stage counts;
    the checkpoints of the previous stage seed a stage without checkpoints,
    its recovery checkpoints do not. *)
Example resolve_snapshots :
  _retrieve_current_evolution_and_last_snapshot
    (TB := Demo.tb) (HP := Demo.listing Demo.disk_b)
    {[ "base/a"; "base/b" ]} "base" Demo.abc None
  = Ok ("b", Some ("b", 20, "base/b/checkpoints/snapshot-20")) ∧
  _retrieve_current_evolution_and_last_snapshot
    (TB := Demo.tb) (HP := Demo.listing Demo.disk_c)
    {[ "base/c" ]} "base" Demo.abc None
  = Ok ("c", Some ("c", 7, "base/c/recovery_checkpoints/snapshot-7")) ∧
  _retrieve_current_evolution_and_last_snapshot
    (TB := Demo.tb) (HP := Demo.listing Demo.disk_b)
    {[ "base/a"; "base/b"; "base/c" ]} "base" Demo.abc None
  = Ok ("c", Some ("b", 20, "base/b/checkpoints/snapshot-20")) ∧
  _retrieve_current_evolution_and_last_snapshot
    (TB := Demo.tb) (HP := Demo.listing Demo.disk_b_recovery)
    {[ "base/a"; "base/b"; "base/c" ]} "base" Demo.abc None
  = Ok ("c", None).
Proof. vm_compute. done. Qed.

Lemma init_needs_seed_after_first_stage_witness :
  __init__ (TB := Demo.tb) (HP := Demo.listing ∅)
    {[ "base/a"; "base/b" ]} () "base" (PyList Demo.abc) None
  = Raise (RuntimeError
             (Py.dq +:+ "b" +:+ Py.dq +:+
              " is not the first evolution and no init snapshot was found for the previous evolution")) ∧
  ∃ self,
    __init__ (TB := Demo.tb) (HP := Demo.listing ∅)
      ∅ () "base" (PyList Demo.abc) None = Ok self ∧
    _current_evolution self = "a" ∧ _init_snapshot self = None.
Proof.
  split.
  - destruct (init_needs_seed_after_first_stage
                (TB := Demo.tb) (HP := Demo.listing ∅)
                {[ "base/a"; "base/b" ]} () "base" (PyList Demo.abc)
                Demo.abc None "b") as [H _];
      [by left | vm_compute; reflexivity | discriminate
      | vm_compute; reflexivity |].
    apply H. discriminate.
  - destruct (init_needs_seed_after_first_stage
                (TB := Demo.tb) (HP := Demo.listing ∅)
                ∅ () "base" (PyList Demo.abc)
                Demo.abc None "a") as [_ H];
      [by left | vm_compute; reflexivity | discriminate
      | vm_compute; reflexivity |].
    apply H. reflexivity.
Defined.

Lemma override_membership_and_effect_witness :
  (∃ e, __init__ (TB := Demo.tb) (HP := Demo.listing Demo.disk_b)
          {[ "base/a"; "base/b" ]} () "base" (PyList Demo.abc) (Some "z")
        = Raise e) ∧
  __init__ (TB := Demo.tb) (HP := Demo.listing Demo.disk_b)
    {[ "base/a"; "base/b" ]} () "base" (PyList Demo.abc) (Some "z")
  = Raise (ValueError ("z" +:+ " is not in the evolution list")) ∧
  (∀ fs', ∃ snapshot,
     _retrieve_current_evolution_and_last_snapshot
       (TB := Demo.tb) (HP := Demo.listing Demo.disk_b)
       fs' "base" Demo.abc (Some "c") = Ok ("c", snapshot)) ∧
  _current_evolution
    (Demo.trainer "c" (Some ("b", 20, "base/b/checkpoints/snapshot-20"))) = "c".
Proof.
  destruct (override_membership_and_effect
              (TB := Demo.tb) (HP := Demo.listing Demo.disk_b)
              {[ "base/a"; "base/b" ]} () "base" (PyList Demo.abc) "z")
    as (H1 & H2 & _ & _).
  destruct (override_membership_and_effect
              (TB := Demo.tb) (HP := Demo.listing Demo.disk_b)
              {[ "base/a"; "base/b" ]} () "base" (PyList Demo.abc) "c")
    as (_ & _ & H3 & H4).
  split_and!.
  - apply H1. apply (bool_decide_unpack _). vm_compute. exact I.
  - apply (H2 Demo.abc);
      [by left | vm_compute; reflexivity | discriminate |].
    apply (bool_decide_unpack _). vm_compute. exact I.
  - apply H3. apply (bool_decide_unpack _). vm_compute. exact I.
  - apply H4. vm_compute. reflexivity.
Defined.

(** An override to "c" without a directory for "c". *)
Example force_without_directory :
  __init__ (TB := Demo.tb) (HP := Demo.listing Demo.disk_b)
    {[ "base/a"; "base/b" ]} () "base" (PyList Demo.abc) (Some "c")
  = Ok (Demo.trainer "c" (Some ("b", 20, "base/b/checkpoints/snapshot-20"))).
Proof. vm_compute. reflexivity. Qed.

Lemma abc_not_reserved x : x ∈ Demo.abc → ¬ reserved (TB := Demo.tb) x.
Proof.
  intros Hx Hres. unfold Demo.abc in Hx.
  repeat (apply elem_of_cons in Hx as [->|Hx]);
    [| | | by apply not_elem_of_nil in Hx];
    unfold reserved in Hres; simpl in Hres;
    repeat (destruct Hres as [Hres|Hres]; [discriminate |]); discriminate.
Qed.

Lemma abc_NoDup : NoDup Demo.abc.
Proof. apply (bool_decide_unpack _). vm_compute. exact I. Qed.

Lemma construction_validates_stage_list_witness :
  _check_evolution_names (TB := Demo.tb) Demo.abc = Ok () ∧
  __init__ (TB := Demo.tb) (HP := Demo.listing ∅)
    ∅ () "base" (PyTuple []) None
  = Raise (ValueError "evolution list is empty!") ∧
  (∃ x, x ∈ ["a"; "checkpoints"] ∧ reserved (TB := Demo.tb) x ∧
     __init__ (TB := Demo.tb) (HP := Demo.listing ∅)
       ∅ () "base" (PyList ["a"; "checkpoints"]) None
     = Raise (ValueError (Py.dq +:+ x +:+ Py.dq +:+ " is not a valid evo name!"))) ∧
  (∃ x, repeated ["a"; "b"; "a"] x ∧
     __init__ (TB := Demo.tb) (HP := Demo.listing ∅)
       ∅ () "base" (PyList ["a"; "b"; "a"]) None
     = Raise (ValueError ("There are at least two evolutions named "
                            +:+ Py.dq +:+ x +:+ Py.dq +:+ "!"))).
Proof.
  split_and!.
  - destruct (construction_validates_stage_list
                (TB := Demo.tb) (HP := Demo.listing ∅)
                ∅ () "base" (PyList Demo.abc) Demo.abc None) as (H & _);
      [by left |].
    apply H; [discriminate | exact abc_NoDup | exact abc_not_reserved].
  - destruct (construction_validates_stage_list
                (TB := Demo.tb) (HP := Demo.listing ∅)
                ∅ () "base" (PyTuple []) [] None) as (_ & H & _);
      [by right |].
    apply H. reflexivity.
  - destruct (construction_validates_stage_list
                (TB := Demo.tb) (HP := Demo.listing ∅)
                ∅ () "base" (PyList ["a"; "checkpoints"])
                ["a"; "checkpoints"] None) as (_ & _ & H & _);
      [by left |].
    apply H. exists "checkpoints". split.
    + apply (bool_decide_unpack _). vm_compute. exact I.
    + right. right. left. reflexivity.
  - destruct (construction_validates_stage_list
                (TB := Demo.tb) (HP := Demo.listing ∅)
                ∅ () "base" (PyList ["a"; "b"; "a"])
                ["a"; "b"; "a"] None) as (_ & _ & _ & H);
      [by left |].
    apply H.
    + intros x Hx Hres.
      repeat (apply elem_of_cons in Hx as [->|Hx]);
        [| | | by apply not_elem_of_nil in Hx];
        unfold reserved in Hres; simpl in Hres;
        repeat (destruct Hres as [Hres|Hres]; [discriminate |]); discriminate.
    + apply (bool_decide_unpack _). vm_compute. exact I.
Defined.

(** A clean start on a valid list succeeds at the first stage. *)
Example construct_clean_start :
  __init__ (TB := Demo.tb) (HP := Demo.listing ∅)
    ∅ () "base" (PyList Demo.abc) None
  = Ok (Demo.trainer "a" None).
Proof. vm_compute. reflexivity. Qed.

Lemma first_position_here x l : first_position (x :: l) x 0.
Proof. split; [reflexivity | intros j Hj; lia]. Qed.

Lemma mainloop_stage_transition_witness :
  mainloop (TB := Demo.tb) (ST := Demo.loop_returning 0)
    (Demo.trainer "a" None) {[ "base/a" ]}
  = Ok (1, Os.makedirs {[ "base/a" ]} "base/b") ∧
  Os.path_isdir (Os.makedirs {[ "base/a" ]} "base/b") "base/b" = true ∧
  mainloop (TB := Demo.tb) (ST := Demo.loop_returning 0)
    (Demo.trainer "a" None) {[ "base/a"; "base/b" ]}
  = Ok (1, Os.makedirs {[ "base/a"; "base/b" ]} "base/b") ∧
  mainloop (TB := Demo.tb) (ST := Demo.loop_returning 0)
    (Demo.trainer "c" (Some ("c", 7, "base/c/recovery_checkpoints/snapshot-7")))
    {[ "base/c" ]}
  = Ok (0, {[ "base/c" ]}) ∧
  mainloop (TB := Demo.tb) (ST := Demo.loop_returning 2)
    (Demo.trainer "a" None) {[ "base/a" ]}
  = Ok (2, {[ "base/a" ]}).
Proof.
  split_and!.
  - destruct (mainloop_stage_transition
                (TB := Demo.tb) (HP := Demo.listing ∅)
                (ST := Demo.loop_returning 0)
                ∅ () "base" (PyList Demo.abc) None (Demo.trainer "a" None)
                {[ "base/a" ]} 0 {[ "base/a" ]})
      as (i & Hpos & H & _); [vm_compute; reflexivity | reflexivity |].
    rewrite (first_position_unique _ _ _ _ Hpos (first_position_here _ _)) in H.
    by destruct (H eq_refl "b" eq_refl) as (Hloop & _).
  - apply makedirs_isdir.
  - destruct (mainloop_stage_transition
                (TB := Demo.tb) (HP := Demo.listing ∅)
                (ST := Demo.loop_returning 0)
                ∅ () "base" (PyList Demo.abc) None (Demo.trainer "a" None)
                {[ "base/a"; "base/b" ]} 0 {[ "base/a"; "base/b" ]})
      as (i & Hpos & H & _); [vm_compute; reflexivity | reflexivity |].
    rewrite (first_position_unique _ _ _ _ Hpos (first_position_here _ _)) in H.
    by destruct (H eq_refl "b" eq_refl) as (Hloop & _).
  - destruct (mainloop_stage_transition
                (TB := Demo.tb) (HP := Demo.listing Demo.disk_c)
                (ST := Demo.loop_returning 0)
                {[ "base/c" ]} () "base" (PyList Demo.abc) None
                (Demo.trainer "c"
                   (Some ("c", 7, "base/c/recovery_checkpoints/snapshot-7")))
                {[ "base/c" ]} 0 {[ "base/c" ]})
      as (i & Hpos & _ & H & _); [vm_compute; reflexivity | reflexivity |].
    assert (first_position Demo.abc "c" 2) as Hc.
    { split; [reflexivity |].
      intros [|[|j]] Hj; [discriminate | discriminate | lia]. }
    rewrite (first_position_unique _ _ _ _ Hpos Hc) in H.
    apply H; reflexivity.
  - destruct (mainloop_stage_transition
                (TB := Demo.tb) (HP := Demo.listing ∅)
                (ST := Demo.loop_returning 2)
                ∅ () "base" (PyList Demo.abc) None (Demo.trainer "a" None)
                {[ "base/a" ]} 2 {[ "base/a" ]})
      as (i & Hpos & _ & _ & H); [vm_compute; reflexivity | reflexivity |].
    apply H. discriminate.
Defined.

(** * The further properties at concrete inputs *)

Ltac by_evaluation := apply (bool_decide_unpack _); vm_compute; exact I.

Lemma abc_position_c : first_position Demo.abc "c" 2.
Proof.
  split; [reflexivity |].
  intros [|[|j]] Hj; [discriminate | discriminate | lia].
Qed.

Lemma abc_position_b : first_position Demo.abc "b" 1.
Proof.
  split; [reflexivity |]. intros [|j] Hj; [discriminate | lia].
Qed.

Lemma resolution_failures_witness :
  _retrieve_current_evolution_and_last_snapshot
    (TB := Demo.tb) (HP := Demo.listing ∅) ∅ "base" [] None
  = Raise IndexError ∧
  _retrieve_current_evolution_and_last_snapshot
    (TB := Demo.tb) (HP := Demo.listing ∅) ∅ "base" Demo.abc (Some "z")
  = Raise (NotInList "z") ∧
  ∃ current_evo snapshot,
    _retrieve_current_evolution_and_last_snapshot
      (TB := Demo.tb) (HP := Demo.listing ∅) ∅ "base" Demo.abc None
    = Ok (current_evo, snapshot) ∧
    current_evo ∈ Demo.abc.
Proof.
  split_and!.
  - apply (proj1 (resolution_failures
                    (TB := Demo.tb) (HP := Demo.listing ∅) ∅ "base" [])).
    reflexivity.
  - apply (proj1 (proj2 (resolution_failures
                    (TB := Demo.tb) (HP := Demo.listing ∅) ∅ "base" Demo.abc))).
    by_evaluation.
  - apply (proj2 (proj2 (resolution_failures
                    (TB := Demo.tb) (HP := Demo.listing ∅) ∅ "base" Demo.abc))
             None).
    discriminate.
Defined.

Lemma seed_is_from_current_or_previous_witness :
  ("b" = "c" ∧
   (20, "base/b/checkpoints/snapshot-20")
     ∈ (retrieve_all_checkpoints (Helpers := Demo.listing Demo.disk_b)
          (Os.path_join "base" ["c"; "checkpoints"; "snapshot"])
        ++ retrieve_all_checkpoints (Helpers := Demo.listing Demo.disk_b)
          (Os.path_join "base" ["c"; "recovery_checkpoints"; "snapshot"]))%list)
  ∨ ("b" ≠ "c" ∧
     (∃ i, first_position Demo.abc "c" i ∧ (0 < i)%nat ∧
           Demo.abc !! (i - 1)%nat = Some "b") ∧
     (20, "base/b/checkpoints/snapshot-20")
       ∈ retrieve_all_checkpoints (Helpers := Demo.listing Demo.disk_b)
           (Os.path_join "base" ["b"; "checkpoints"; "snapshot"])).
Proof.
  apply (seed_is_from_current_or_previous
           (TB := Demo.tb) (HP := Demo.listing Demo.disk_b)
           Demo.tree_abc "base" Demo.abc None "c" "b" 20
           "base/b/checkpoints/snapshot-20").
  vm_compute. reflexivity.
Defined.

Lemma seed_never_from_nameless_stage_witness : "b" ≠ EmptyString.
Proof.
  apply (seed_never_from_nameless_stage
           (TB := Demo.tb) (HP := Demo.listing Demo.disk_b)
           Demo.tree_abc "base" Demo.abc None "c" "b" 20
           "base/b/checkpoints/snapshot-20").
  vm_compute. reflexivity.
Defined.

(** A single stage named by the empty string: the checkpoint in its
    directory is not taken. *)
Example nameless_stage_has_no_seed :
  retrieve_all_checkpoints (Helpers := Demo.listing Demo.disk_nameless)
    (Os.path_join "base" [EmptyString; "checkpoints"; "snapshot"])
  = [(3, "base/checkpoints/snapshot-3")] ∧
  _retrieve_current_evolution_and_last_snapshot
    (TB := Demo.tb) (HP := Demo.listing Demo.disk_nameless)
    ∅ "base" [EmptyString] None
  = Ok (EmptyString, None).
Proof. vm_compute. done. Qed.

Lemma seed_of_current_stage_is_highest_witness :
  ∃ iteration path,
    Some ("c", 7, "base/c/recovery_checkpoints/snapshot-7")
    = Some ("c", iteration, path) ∧
    (iteration, path)
      ∈ (retrieve_all_checkpoints (Helpers := Demo.listing Demo.disk_c)
           (Os.path_join "base" ["c"; "checkpoints"; "snapshot"])
         ++ retrieve_all_checkpoints (Helpers := Demo.listing Demo.disk_c)
           (Os.path_join "base" ["c"; "recovery_checkpoints"; "snapshot"]))%list ∧
    ∀ iteration' path',
      (iteration', path')
        ∈ (retrieve_all_checkpoints (Helpers := Demo.listing Demo.disk_c)
             (Os.path_join "base" ["c"; "checkpoints"; "snapshot"])
           ++ retrieve_all_checkpoints (Helpers := Demo.listing Demo.disk_c)
             (Os.path_join "base" ["c"; "recovery_checkpoints"; "snapshot"]))%list →
      iteration' ≤ iteration.
Proof.
  apply (seed_of_current_stage_is_highest
           (TB := Demo.tb) (HP := Demo.listing Demo.disk_c)
           Demo.tree_c "base" Demo.abc None "c"
           (Some ("c", 7, "base/c/recovery_checkpoints/snapshot-7"))).
  - vm_compute. reflexivity.
  - discriminate.
  - vm_compute. discriminate.
Defined.

Lemma seed_of_previous_stage_when_ascending_witness :
  ∃ iteration path,
    Some ("b", 20, "base/b/checkpoints/snapshot-20")
    = Some ("b", iteration, path) ∧
    (iteration, path)
      ∈ retrieve_all_checkpoints (Helpers := Demo.listing Demo.disk_b)
          (Os.path_join "base" ["b"; "checkpoints"; "snapshot"]) ∧
    ∀ iteration' path',
      (iteration', path')
        ∈ retrieve_all_checkpoints (Helpers := Demo.listing Demo.disk_b)
            (Os.path_join "base" ["b"; "checkpoints"; "snapshot"]) →
      iteration' ≤ iteration.
Proof.
  apply (seed_of_previous_stage_when_ascending
           (TB := Demo.tb) (HP := Demo.listing Demo.disk_b)
           Demo.tree_abc "base" Demo.abc None "c"
           (Some ("b", 20, "base/b/checkpoints/snapshot-20")) 2 "b").
  - vm_compute. reflexivity.
  - vm_compute. reflexivity.
  - vm_compute. reflexivity.
  - exact abc_position_c.
  - lia.
  - reflexivity.
  - discriminate.
  - vm_compute. discriminate.
  - vm_compute. repeat constructor; discriminate.
Defined.

Lemma queries_form_one_order_witness :
  ∃ lt gt : bool,
    current_evo_lt (Demo.trainer "b" None) "c" = Ok lt ∧
    current_evo_gt (Demo.trainer "b" None) "c" = Ok gt ∧
    current_evo_eq (Demo.trainer "b" None) "c"
    = Ok (bool_decide (name (current_evo (Demo.trainer "b" None)) = "c")) ∧
    current_evo_ne (Demo.trainer "b" None) "c"
    = Ok (negb (bool_decide (name (current_evo (Demo.trainer "b" None)) = "c"))) ∧
    current_evo_le (Demo.trainer "b" None) "c" = Ok (negb gt) ∧
    current_evo_ge (Demo.trainer "b" None) "c" = Ok (negb lt) ∧
    lt && gt = false ∧
    lt || gt
    = negb (bool_decide (name (current_evo (Demo.trainer "b" None)) = "c")).
Proof.
  apply (queries_form_one_order (Demo.trainer "b" None) "c"); by_evaluation.
Defined.

Lemma less_than_converse_and_transitive_witness :
  __lt__ {| _evolution := "a"; _all_evolutions := Demo.abc |} "b"
  = __gt__ {| _evolution := "b"; _all_evolutions := Demo.abc |} "a" ∧
  __lt__ {| _evolution := "a"; _all_evolutions := Demo.abc |} "c" = Ok true.
Proof.
  destruct (less_than_converse_and_transitive Demo.abc "a" "b" "c")
    as [Hconverse Htrans]; [by_evaluation | by_evaluation | by_evaluation |].
  split; [exact Hconverse |].
  apply Htrans; vm_compute; reflexivity.
Defined.

Lemma comparison_of_foreign_stage_witness :
  evo_compare {| _evolution := "z"; _all_evolutions := Demo.abc |}
    operator_lt "a" = Raise (NotInList "z") ∧
  evo_compare {| _evolution := "z"; _all_evolutions := Demo.abc |}
    operator_lt "y"
  = Raise (ValueError ("Unknown evolution " +:+ Py.dq +:+ "y" +:+ Py.dq)).
Proof.
  destruct (comparison_of_foreign_stage
              {| _evolution := "z"; _all_evolutions := Demo.abc |}
              operator_lt "a") as [H _]; [by_evaluation |].
  destruct (comparison_of_foreign_stage
              {| _evolution := "z"; _all_evolutions := Demo.abc |}
              operator_lt "y") as [_ H']; [by_evaluation |].
  split; [apply H | apply H']; by_evaluation.
Defined.

Lemma membership_is_some_equality_witness :
  current_evo_in (Demo.trainer "b" None) ["a"; "b"] = Ok true
  ↔ ∃ evo, evo ∈ ["a"; "b"] ∧ current_evo_eq (Demo.trainer "b" None) evo = Ok true.
Proof.
  apply (membership_is_some_equality (Demo.trainer "b" None) ["a"; "b"]).
  - by_evaluation.
  - intros evo Hevo.
    repeat (apply elem_of_cons in Hevo as [->|Hevo]); [by_evaluation .. |].
    by apply not_elem_of_nil in Hevo.
Defined.

Lemma reserved_name_reported_first_witness :
  _check_evolution_names (TB := Demo.tb) ["a"; "a"; "checkpoints"; "trainlogs"]
  = Raise (ValueError
             (Py.dq +:+ "checkpoints" +:+ Py.dq +:+ " is not a valid evo name!")).
Proof.
  apply (reserved_name_reported_first (TB := Demo.tb)
           ["a"; "a"; "checkpoints"; "trainlogs"] 2 "checkpoints").
  - reflexivity.
  - right. right. left. reflexivity.
  - intros [|[|k]] y Hk Hy; [| | lia]; injection Hy as <-;
      intros Hres; unfold reserved in Hres; simpl in Hres;
      repeat (destruct Hres as [Hres|Hres]; [discriminate |]); discriminate.
Defined.

Lemma repeated_name_reported_first_witness :
  _check_evolution_names (TB := Demo.tb) ["a"; "b"; "b"; "a"]
  = Raise (ValueError ("There are at least two evolutions named "
                         +:+ Py.dq +:+ "b" +:+ Py.dq +:+ "!")).
Proof.
  apply (repeated_name_reported_first (TB := Demo.tb)
           ["a"; "b"; "b"; "a"] 2 "b").
  - intros y Hy Hres.
    repeat (apply elem_of_cons in Hy as [->|Hy]);
      [| | | | by apply not_elem_of_nil in Hy];
      unfold reserved in Hres; simpl in Hres;
      repeat (destruct Hres as [Hres|Hres]; [discriminate |]); discriminate.
  - reflexivity.
  - by_evaluation.
  - by_evaluation.
Defined.

Lemma constructed_trainer_invariants_witness :
  names_of (PyList Demo.abc)
  = _evolutions (Demo.trainer "c" (Some ("b", 20, "base/b/checkpoints/snapshot-20"))) ∧
  NoDup Demo.abc ∧
  (∀ x, x ∈ Demo.abc → ¬ reserved (TB := Demo.tb) x) ∧
  "c" ∈ Demo.abc ∧
  "base" = "base" ∧
  () = () ∧
  () = () ∧
  "base/c" = Os.path_join "base" ["c"] ∧
  (Some ("b", 20, "base/b/checkpoints/snapshot-20") = None →
   Demo.abc !! 0%nat = Some "c").
Proof.
  apply (constructed_trainer_invariants
           (TB := Demo.tb) (HP := Demo.listing Demo.disk_b)
           Demo.tree_abc () "base" (PyList Demo.abc) None
           (Demo.trainer "c" (Some ("b", 20, "base/b/checkpoints/snapshot-20")))).
  vm_compute. reflexivity.
Defined.

Lemma non_sequence_argument_rejected_witness :
  ∃ e, __init__ (TB := Demo.tb) (HP := Demo.listing ∅)
         ∅ () "base" (PyOther Demo.abc) None = Raise e ∧
       e = ValueError ("invalid argument for " +:+ Py.dq +:+ "evolutions" +:+ Py.dq).
Proof.
  destruct (non_sequence_argument_rejected
              (TB := Demo.tb) (HP := Demo.listing ∅)
              ∅ () "base" Demo.abc None) as (e & Heq & Hpass & _).
  exists e. split; [exact Heq |]. apply Hpass. vm_compute. reflexivity.
Defined.

Lemma stage_directory_location_witness :
  st_train_dir (_simpletrainer Demo.trainer_abs) = "/abs" ∧
  st_train_dir (_simpletrainer (Demo.trainer "a" None))
  = "base" +:+ String Os.sep "a".
Proof.
  split.
  - destruct (stage_directory_location
                (TB := Demo.tb) (HP := Demo.listing ∅)
                ∅ () "base" (PyList ["/abs"]) None Demo.trainer_abs)
      as [H _]; [vm_compute; reflexivity |].
    apply H. reflexivity.
  - destruct (stage_directory_location
                (TB := Demo.tb) (HP := Demo.listing ∅)
                ∅ () "base" (PyList Demo.abc) None (Demo.trainer "a" None))
      as [_ H]; [vm_compute; reflexivity |].
    apply H. reflexivity.
Defined.

Lemma finished_only_at_last_stage_witness :
  last Demo.abc = Some "c" ∧
  SimpleTrainer_mainloop (SimpleTrainerLoop := Demo.loop_returning 0)
    (_simpletrainer
       (Demo.trainer "c" (Some ("c", 7, "base/c/recovery_checkpoints/snapshot-7"))))
    Demo.tree_c
  = (0, Demo.tree_c).
Proof.
  apply (finished_only_at_last_stage
           (TB := Demo.tb) (HP := Demo.listing Demo.disk_c)
           (ST := Demo.loop_returning 0)
           Demo.tree_c () "base" (PyList Demo.abc) None
           (Demo.trainer "c" (Some ("c", 7, "base/c/recovery_checkpoints/snapshot-7")))
           Demo.tree_c Demo.tree_c).
  - vm_compute. reflexivity.
  - discriminate.
  - vm_compute. reflexivity.
Defined.

Lemma mainloop_only_adds_next_stage_witness :
  Demo.tree_ab ⊆ Os.makedirs Demo.tree_ab "base/c" ∧
  ∀ path, path ∈ Os.makedirs Demo.tree_ab "base/c" → path ∉ Demo.tree_ab →
    ∃ i next_evolution,
      first_position Demo.abc "b" i ∧
      Demo.abc !! (i + 1)%nat = Some next_evolution ∧
      (path = Os.path_join "base" [next_evolution] ∨
       path ∈ Os.parents EmptyString (Os.path_join "base" [next_evolution])).
Proof.
  apply (mainloop_only_adds_next_stage
           (TB := Demo.tb) (HP := Demo.listing Demo.disk_b)
           (ST := Demo.loop_returning 0)
           Demo.tree_ab () "base" (PyList Demo.abc) None
           (Demo.trainer "b" (Some ("b", 20, "base/b/checkpoints/snapshot-20")))
           Demo.tree_ab 0 Demo.tree_ab 1 (Os.makedirs Demo.tree_ab "base/c")).
  - vm_compute. reflexivity.
  - reflexivity.
  - reflexivity.
Defined.

Lemma restart_proceeds_to_later_stage_witness :
  ∃ current_evo snapshot k,
    _retrieve_current_evolution_and_last_snapshot
      (TB := Demo.tb) (HP := Demo.listing Demo.disk_b)
      (Os.makedirs Demo.tree_ab "base/c") "base" Demo.abc None
    = Ok (current_evo, snapshot) ∧
    Demo.abc !! k = Some current_evo ∧ (1 < k)%nat ∧
    ((∀ j evo, (1 + 1 < j)%nat → Demo.abc !! j = Some evo →
               Os.path_isdir (Os.makedirs Demo.tree_ab "base/c")
                 (Os.path_join "base" [evo]) = false) →
     current_evo = "c").
Proof.
  apply (restart_proceeds_to_later_stage
           (TB := Demo.tb) (HP := Demo.listing Demo.disk_b)
           (ST := Demo.loop_returning 0)
           Demo.tree_ab () "base" (PyList Demo.abc) None
           (Demo.trainer "b" (Some ("b", 20, "base/b/checkpoints/snapshot-20")))
           Demo.tree_ab Demo.tree_ab 1 (Os.makedirs Demo.tree_ab "base/c")
           1%nat "c").
  - vm_compute. reflexivity.
  - reflexivity.
  - exact abc_position_b.
  - reflexivity.
  - reflexivity.
Defined.

Lemma construct_then_load_witness :
  let self := Demo.trainer "c" (Some ("b", 20, "base/b/checkpoints/snapshot-20")) in
  (init_snapshot self = None ∧
   _evolutions self !! 0%nat = Some (_current_evolution self) ∧
   load_checkpoint self None true false
   = [Stdout ["nothing to restore. no checkpoint found."]])
  ∨ (∃ iteration path,
       init_snapshot self = Some (_current_evolution self, iteration, path) ∧
       (iteration, path)
         ∈ (retrieve_all_checkpoints (Helpers := Demo.listing Demo.disk_b)
              (Os.path_join "base"
                 [_current_evolution self; "checkpoints"; "snapshot"])
            ++ retrieve_all_checkpoints (Helpers := Demo.listing Demo.disk_b)
              (Os.path_join "base"
                 [_current_evolution self; "recovery_checkpoints"; "snapshot"]))%list ∧
       load_checkpoint self None true false
       = [Stdout ["loading"; path];
          OptimisticRestore path (Passed None) true (Passed false)])
  ∨ (∃ previous_evo iteration path i,
       init_snapshot self = Some (previous_evo, iteration, path) ∧
       first_position (_evolutions self) (_current_evolution self) i ∧
       (0 < i)%nat ∧
       _evolutions self !! (i - 1)%nat = Some previous_evo ∧
       (iteration, path)
         ∈ retrieve_all_checkpoints (Helpers := Demo.listing Demo.disk_b)
             (Os.path_join "base" [previous_evo; "checkpoints"; "snapshot"]) ∧
       load_checkpoint self None true false
       = [Stdout ["loading"; path];
          OptimisticRestore path (Passed (Some ["global_step"])) true
            (Passed false)]).
Proof.
  apply (construct_then_load
           (TB := Demo.tb) (HP := Demo.listing Demo.disk_b)
           Demo.tree_abc () "base" (PyList Demo.abc) None
           (Demo.trainer "c" (Some ("b", 20, "base/b/checkpoints/snapshot-20")))
           true false).
  vm_compute. reflexivity.
Defined.

Lemma next_stage_starts_from_previous_witness :
  ∃ self,
    __init__ (TB := Demo.tb) (HP := Demo.listing Demo.disk_b)
      Demo.tree_abc () "base" (PyList Demo.abc) None = Ok self ∧
    _current_evolution self = "c" ∧
    init_snapshot self = Some ("b", 20, "base/b/checkpoints/snapshot-20") ∧
    load_checkpoint self None true false
    = [Stdout ["loading"; "base/b/checkpoints/snapshot-20"];
       OptimisticRestore "base/b/checkpoints/snapshot-20"
         (Passed (Some ["global_step"])) true (Passed false)].
Proof.
  apply (next_stage_starts_from_previous
           (TB := Demo.tb) (HP := Demo.listing Demo.disk_b)
           Demo.tree_abc () "base" Demo.abc 1 "b" "c" 20
           "base/b/checkpoints/snapshot-20" true false).
  - vm_compute. reflexivity.
  - reflexivity.
  - reflexivity.
  - vm_compute. reflexivity.
  - intros [|[|[|j]]] evo Hj Hevo; [lia | lia | lia | discriminate].
  - vm_compute. reflexivity.
  - vm_compute. reflexivity.
  - discriminate.
  - vm_compute. reflexivity.
Defined.

Lemma resolution_reads_three_listings_witness :
  _retrieve_current_evolution_and_last_snapshot
    (TB := Demo.tb) (HP := Demo.listing Demo.disk_b_more)
    Demo.tree_abc "base" Demo.abc None
  = Ok ("c", Some ("b", 20, "base/b/checkpoints/snapshot-20")).
Proof.
  apply (resolution_reads_three_listings (TB := Demo.tb)
           (Demo.listing Demo.disk_b) (Demo.listing Demo.disk_b_more)
           Demo.tree_abc "base" Demo.abc None "c"
           (Some ("b", 20, "base/b/checkpoints/snapshot-20"))).
  - vm_compute. reflexivity.
  - vm_compute. reflexivity.
  - vm_compute. reflexivity.
  - intros i previous_evo Hpos Hi Hprev.
    rewrite (first_position_unique _ _ _ _ Hpos abc_position_c) in Hprev.
    injection Hprev as <-. vm_compute. reflexivity.
Defined.
